(** * go-scm: the GitLab request executor and the webhook codec

    A shallow embedding of [scm/driver/gitlab/gitlab.go] and of
    [scm/webhook.go], together with the parts of the Go standard library
    these two files call ([strconv], [unicode/utf8], [encoding/json],
    [net/textproto], [net/url]), written after the library's documented
    behaviour.

    Conventions.
    - A Go [string] or [[]byte] is a Rocq [string]: a sequence of bytes.
    - Go's [int] is taken to be 64 bits wide (the gc compiler on amd64 and
      arm64); [int] and [int64] values are integers of [Z] kept in range.
    - A Go [error] is an [option]: [None] is the nil error, [Some e] an
      error value of the package's error type.
    - A pointer is an [option] too: [None] is the nil pointer, [Some x] a
      pointer to a variable that holds [x]. A function that writes
      through a pointer returns the new content of the variable.
    - A run-time panic is an outcome of its own ([Panics]), never an
      error value.
    - The message and the offset of a JSON syntax error, the closing of
      the response body and the context argument are left out. *)

From Stdlib Require Import ZArith NArith Ascii String List Bool Lia.
From stdpp Require Import base option list strings gmap sorting.

Local Open Scope Z_scope.

(** ** Bytes *)

Definition code (c : ascii) : Z := Z.of_N (N_of_ascii c).
Definition byte_of (n : Z) : ascii := ascii_of_N (Z.to_N (n mod 256)).

Definition bytes (s : string) : list ascii := list_ascii_of_string s.
Definition of_bytes (l : list ascii) : string := string_of_list_ascii l.

Definition between (lo hi c : Z) : bool := (lo <=? c) && (c <=? hi).
Definition is_digit (c : Z) : bool := between 48 57 c.
Definition is_lower (c : Z) : bool := between 97 122 c.
Definition is_upper (c : Z) : bool := between 65 90 c.
Definition is_alpha (c : Z) : bool := is_lower c || is_upper c.

(** The double quote is written ['] in the JSON texts of this file and
    turned into the real byte by [js]: [js "{'id':1}"] is the seven bytes
    of the JSON object with the one member [id]. *)
Definition dquote : ascii := byte_of 34.
Definition js (s : string) : string :=
  of_bytes (map (fun c => if code c =? 39 then dquote else c) (bytes s)).

Definition hex_digit (n : Z) : ascii :=
  if n <? 10 then byte_of (48 + n) else byte_of (97 + (n - 10)).
Definition upper_hex_digit (n : Z) : ascii :=
  if n <? 10 then byte_of (48 + n) else byte_of (65 + (n - 10)).
Definition hex_value (c : Z) : option Z :=
  if is_digit c then Some (c - 48)
  else if between 97 102 c then Some (c - 97 + 10)
  else if between 65 70 c then Some (c - 65 + 10)
  else None.

(** A byte-wise scan in which one step may use up several bytes:
    [consume step] calls [step] on the input at each position that the
    previous step did not use up. [step] returns the bytes it emits and
    the number of input bytes it consumed (at least one). *)
Fixpoint consume_from (step : list ascii -> list ascii * nat)
    (skip : nat) (s : list ascii) : list ascii :=
  match s with
  | [] => []
  | _ :: rest =>
      match skip with
      | S k => consume_from step k rest
      | O => let '(out, used) := step s in
             out ++ consume_from step (pred used) rest
      end
  end.
Definition consume (step : list ascii -> list ascii * nat) (s : string) : string :=
  of_bytes (consume_from step 0 (bytes s)).

(** ** Outcomes and errors *)

(** What a Go call does: it returns, or it panics. *)
Inductive panic :=
| NilPointerDereference
| SliceBoundsOutOfRange (low high : Z).

Inductive outcome (A : Type) :=
| Returns (a : A)
| Panics (p : panic).
Arguments Returns {A} a.
Arguments Panics {A} p.

(** A method with a pointer receiver that reads the value pointed to,
    [None] being the nil pointer. *)
Definition through {T A} (p : option T) (method : T -> A) : outcome A :=
  match p with
  | Some x => Returns (method x)
  | None => Panics NilPointerDereference
  end.

(** The slice expression [s[low:high]] of a string. *)
Definition slice (s : string) (low high : Z) : outcome string :=
  if (0 <=? low) && (low <=? high) && (high <=? Z.of_nat (String.length s))
  then Returns (of_bytes (take (Z.to_nat (high - low)) (drop (Z.to_nat low) (bytes s))))
  else Panics (SliceBoundsOutOfRange low high).

Definition newline : string := String (byte_of 10) EmptyString.

(** ** strconv *)

Module strconv.

Inductive NumError := ErrSyntax | ErrRange.

Definition IntSize : Z := 64.
Definition maxUint64 : Z := 2 ^ 64 - 1.

(** The loop of [ParseUint(s, 10, bitSize)]; [n] is the [uint64]
    accumulator, so [n + d] wraps around at [2^64]. *)
Fixpoint ParseUint_loop (maxVal : Z) (s : list ascii) (n : Z) : Z * option NumError :=
  match s with
  | [] => (n, None)
  | c :: s' =>
      let c := code c in
      if is_digit c then
        let d := c - 48 in
        if maxUint64 / 10 + 1 <=? n then (maxVal, Some ErrRange)
        else
          let n := n * 10 in
          let n1 := (n + d) mod 2 ^ 64 in
          if (n1 <? n) || (maxVal <? n1) then (maxVal, Some ErrRange)
          else ParseUint_loop maxVal s' n1
      else (0, Some ErrSyntax)
  end.

(** [ParseUint(s, 10, bitSize)], [bitSize] being 0 or in 1..64. *)
Definition ParseUint10 (s : string) (bitSize : Z) : Z * option NumError :=
  match s with
  | EmptyString => (0, Some ErrSyntax)
  | _ =>
      let bitSize := if bitSize =? 0 then IntSize else bitSize in
      ParseUint_loop (2 ^ bitSize - 1) (bytes s) 0
  end.

(** [ParseInt(s, 10, bitSize)]. From the documentation of the
    function: if [s] is empty or contains invalid digits, [err.Err =
    ErrSyntax] and the returned value is 0; if the value corresponding
    to [s] cannot be represented by a signed integer of the given size,
    [err.Err = ErrRange] and the returned value is the maximum magnitude
    integer of the appropriate [bitSize] and sign. *)
Definition ParseInt10 (s : string) (bitSize : Z) : Z * option NumError :=
  match s with
  | EmptyString => (0, Some ErrSyntax)
  | String c0 rest =>
      let neg := code c0 =? 45 in
      let s1 := if (code c0 =? 43) || neg then rest else s in
      match ParseUint10 s1 bitSize with
      | (_, Some ErrSyntax) => (0, Some ErrSyntax)
      | (un, _) =>
          let bitSize := if bitSize =? 0 then IntSize else bitSize in
          let cutoff := 2 ^ (bitSize - 1) in
          if negb neg && (cutoff <=? un) then (cutoff - 1, Some ErrRange)
          else if neg && (cutoff <? un) then (- cutoff, Some ErrRange)
          else (if neg then - un else un, None)
      end
  end.

(** [Atoi(s)]: [ParseInt(s, 10, 0)] converted to [int], with a fast
    path for 1 to 18 bytes. *)
Fixpoint Atoi_digits (s : list ascii) (n : Z) : option Z :=
  match s with
  | [] => Some n
  | c :: s' =>
      let ch := (code c - 48) mod 256 in
      if 9 <? ch then None else Atoi_digits s' (n * 10 + ch)
  end.

Definition Atoi (s : string) : Z * option NumError :=
  let sLen := Z.of_nat (String.length s) in
  if (0 <? sLen) && (sLen <? 19) then
    match s with
    | EmptyString => (0, Some ErrSyntax)
    | String c0 rest =>
        let signed := (code c0 =? 45) || (code c0 =? 43) in
        let s1 := if signed then rest else s in
        if signed && (String.length s1 =? 0)%nat then (0, Some ErrSyntax)
        else
          match Atoi_digits (bytes s1) 0 with
          | None => (0, Some ErrSyntax)
          | Some n => (if code c0 =? 45 then - n else n, None)
          end
    end
  else ParseInt10 s 0.

End strconv.

(** ** unicode/utf8 *)

Module utf8.

Definition RuneError : Z := 65533.

Definition cont (c : Z) : bool := between 128 191 c.

(** [DecodeRune]: the rune at the head of [s] and its width in bytes;
    [(RuneError, 1)] for an encoding that is not valid, [(RuneError, 0)]
    for no input. *)
Definition DecodeRune (s : list ascii) : Z * nat :=
  match map code s with
  | [] => (RuneError, 0%nat)
  | b0 :: t =>
      if b0 <? 128 then (b0, 1%nat)
      else if between 194 223 b0 then
        match t with
        | b1 :: _ =>
            if cont b1 then ((b0 - 192) * 64 + (b1 - 128), 2%nat)
            else (RuneError, 1%nat)
        | _ => (RuneError, 1%nat)
        end
      else if between 224 239 b0 then
        match t with
        | b1 :: b2 :: _ =>
            let lo := if b0 =? 224 then 160 else 128 in
            let hi := if b0 =? 237 then 159 else 191 in
            if between lo hi b1 && cont b2
            then ((b0 - 224) * 4096 + (b1 - 128) * 64 + (b2 - 128), 3%nat)
            else (RuneError, 1%nat)
        | _ => (RuneError, 1%nat)
        end
      else if between 240 244 b0 then
        match t with
        | b1 :: b2 :: b3 :: _ =>
            let lo := if b0 =? 240 then 144 else 128 in
            let hi := if b0 =? 244 then 143 else 191 in
            if between lo hi b1 && cont b2 && cont b3
            then ((b0 - 240) * 262144 + (b1 - 128) * 4096
                  + (b2 - 128) * 64 + (b3 - 128), 4%nat)
            else (RuneError, 1%nat)
        | _ => (RuneError, 1%nat)
        end
      else (RuneError, 1%nat)
  end.

Definition is_surrogate (r : Z) : bool := between 55296 57343 r.

(** [AppendRune]: the UTF-8 bytes of [r]; a surrogate or a value out of
    range is written as U+FFFD. *)
Definition EncodeRune (r : Z) : list ascii :=
  let r := if (r <? 0) || (1114111 <? r) || is_surrogate r then RuneError else r in
  if r <? 128 then [byte_of r]
  else if r <? 2048 then [byte_of (192 + r / 64); byte_of (128 + r mod 64)]
  else if r <? 65536 then
    [byte_of (224 + r / 4096); byte_of (128 + (r / 64) mod 64);
     byte_of (128 + r mod 64)]
  else
    [byte_of (240 + r / 262144); byte_of (128 + (r / 4096) mod 64);
     byte_of (128 + (r / 64) mod 64); byte_of (128 + r mod 64)].

End utf8.

(** ** encoding/json *)

Module json.

(** A JSON text as [encoding/json] reads it: members in the order of
    the text, duplicates kept, a number as its literal, a string and a
    key as the bytes they denote. *)
Inductive value :=
| JNull
| JBool (b : bool)
| JNumber (lit : string)
| JString (s : string)
| JArray (elems : list value)
| JObject (members : list (string * value)).

(** *** Reading a string literal ([unquote]) *)

(** [getu4]: the value of a [\uXXXX] at the head of [s]. *)
Definition getu4 (s : list ascii) : option Z :=
  match map code s with
  | 92 :: 117 :: a :: b :: c :: d :: _ =>
      match hex_value a, hex_value b, hex_value c, hex_value d with
      | Some a, Some b, Some c, Some d => Some (((a * 16 + b) * 16 + c) * 16 + d)
      | _, _, _, _ => None
      end
  | _ => None
  end.

(** [utf16.DecodeRune]. *)
Definition utf16_DecodeRune (r1 r2 : Z) : Z :=
  if between 55296 56319 r1 && between 56320 57343 r2
  then (r1 - 55296) * 1024 + (r2 - 56320) + 65536
  else utf8.RuneError.

(** One step of [unquote] on the inside of a literal the scanner has
    accepted. *)
Definition unquote_step (s : list ascii) : list ascii * nat :=
  match s with
  | [] => ([], 1%nat)
  | c :: t =>
      if code c =? 92 then
        match t with
        | [] => ([], 1%nat)
        | e :: _ =>
            let e' := code e in
            if e' =? 117 then
              match getu4 s with
              | None => ([], 1%nat)
              | Some rr =>
                  if utf8.is_surrogate rr then
                    let dec :=
                      match getu4 (drop 6 s) with
                      | Some rr1 => utf16_DecodeRune rr rr1
                      | None => utf8.RuneError
                      end in
                    if dec =? utf8.RuneError
                    then (utf8.EncodeRune utf8.RuneError, 6%nat)
                    else (utf8.EncodeRune dec, 12%nat)
                  else (utf8.EncodeRune rr, 6%nat)
              end
            else
              let out :=
                if e' =? 98 then byte_of 8
                else if e' =? 102 then byte_of 12
                else if e' =? 110 then byte_of 10
                else if e' =? 114 then byte_of 13
                else if e' =? 116 then byte_of 9
                else e in
              ([out], 2%nat)
        end
      else if code c <? 128 then ([c], 1%nat)
      else
        let '(r, size) := utf8.DecodeRune s in
        (utf8.EncodeRune r, size)
  end.

Definition unquote (raw : list ascii) : string :=
  of_bytes (consume_from unquote_step 0 raw).

(** *** The scanner

    [encoding/json]'s scanner is a pushdown automaton fed one byte at a
    time: a step state and a stack of open arrays and objects. Here the
    same automaton also carries the values read so far. *)

Inductive frame :=
| FArray (done : list value)
| FObjectKey (done : list (string * value))
| FObjectValue (done : list (string * value)) (key : string).

Inductive step_state :=
| BeginValueOrEmpty
| BeginValue
| BeginStringOrEmpty
| BeginString
| InString (raw : list ascii)
| InStringEsc (raw : list ascii)
| InStringEscU (seen : nat) (raw : list ascii)
| Neg (lit : list ascii)
| Int0 (lit : list ascii)
| Int1 (lit : list ascii)
| Dot (lit : list ascii)
| Dot0 (lit : list ascii)
| Exp (lit : list ascii)
| ESign (lit : list ascii)
| E0 (lit : list ascii)
| Literal (rest : list ascii) (v : value)
| EndValue (v : value)
| EndTop (v : value).

Definition maxNestingDepth : Z := 10000.

Definition is_space (c : Z) : bool :=
  (c =? 32) || (c =? 9) || (c =? 13) || (c =? 10).

Definition state : Type := step_state * list frame.

Definition push (f : frame) (next : step_state) (stack : list frame) : option state :=
  if Z.of_nat (length (f :: stack)) <=? maxNestingDepth
  then Some (next, f :: stack) else None.

(** [stateEndValue], the value just read being [v]. *)
Definition end_value (v : value) (stack : list frame) (c : Z) : option state :=
  match stack with
  | [] => if is_space c then Some (EndTop v, []) else None
  | f :: below =>
      if is_space c then Some (EndValue v, stack)
      else
        match f with
        | FObjectKey done =>
            match v with
            | JString key =>
                if c =? 58 then Some (BeginValue, FObjectValue done key :: below) else None
            | _ => None
            end
        | FObjectValue done key =>
            if c =? 44 then Some (BeginString, FObjectKey ((key, v) :: done) :: below)
            else if c =? 125 then Some (EndValue (JObject (rev ((key, v) :: done))), below)
            else None
        | FArray done =>
            if c =? 44 then Some (BeginValue, FArray (v :: done) :: below)
            else if c =? 93 then Some (EndValue (JArray (rev (v :: done))), below)
            else None
        end
  end.

Definition begin_value (stack : list frame) (a : ascii) : option state :=
  let c := code a in
  if is_space c then Some (BeginValue, stack)
  else if c =? 123 then push (FObjectKey []) BeginStringOrEmpty stack
  else if c =? 91 then push (FArray []) BeginValueOrEmpty stack
  else if c =? 34 then Some (InString [], stack)
  else if c =? 45 then Some (Neg [a], stack)
  else if c =? 48 then Some (Int0 [a], stack)
  else if c =? 116 then Some (Literal (bytes "rue") (JBool true), stack)
  else if c =? 102 then Some (Literal (bytes "alse") (JBool false), stack)
  else if c =? 110 then Some (Literal (bytes "ull") JNull, stack)
  else if between 49 57 c then Some (Int1 [a], stack)
  else None.

Definition begin_string (stack : list frame) (c : Z) : option state :=
  if is_space c then Some (BeginString, stack)
  else if c =? 34 then Some (InString [], stack)
  else None.

Definition number (lit : list ascii) : value := JNumber (of_bytes (rev lit)).

Definition step (st : state) (a : ascii) : option state :=
  let '(s, stack) := st in
  let c := code a in
  match s with
  | BeginValueOrEmpty =>
      if is_space c then Some (BeginValueOrEmpty, stack)
      else if c =? 93 then
        match stack with
        | FArray [] :: below => Some (EndValue (JArray []), below)
        | _ => None
        end
      else begin_value stack a
  | BeginValue => begin_value stack a
  | BeginStringOrEmpty =>
      if is_space c then Some (BeginStringOrEmpty, stack)
      else if c =? 125 then
        match stack with
        | FObjectKey [] :: below => Some (EndValue (JObject []), below)
        | _ => None
        end
      else begin_string stack c
  | BeginString => begin_string stack c
  | InString raw =>
      if c =? 34 then Some (EndValue (JString (unquote (rev raw))), stack)
      else if c =? 92 then Some (InStringEsc (a :: raw), stack)
      else if c <? 32 then None
      else Some (InString (a :: raw), stack)
  | InStringEsc raw =>
      if (c =? 98) || (c =? 102) || (c =? 110) || (c =? 114) || (c =? 116)
         || (c =? 92) || (c =? 47) || (c =? 34)
      then Some (InString (a :: raw), stack)
      else if c =? 117 then Some (InStringEscU 0 (a :: raw), stack)
      else None
  | InStringEscU seen raw =>
      match hex_value c with
      | Some _ =>
          if (seen =? 3)%nat then Some (InString (a :: raw), stack)
          else Some (InStringEscU (S seen) (a :: raw), stack)
      | None => None
      end
  | Neg lit =>
      if c =? 48 then Some (Int0 (a :: lit), stack)
      else if between 49 57 c then Some (Int1 (a :: lit), stack)
      else None
  | Int1 lit =>
      if is_digit c then Some (Int1 (a :: lit), stack)
      else if c =? 46 then Some (Dot (a :: lit), stack)
      else if (c =? 101) || (c =? 69) then Some (Exp (a :: lit), stack)
      else end_value (number lit) stack c
  | Int0 lit =>
      if c =? 46 then Some (Dot (a :: lit), stack)
      else if (c =? 101) || (c =? 69) then Some (Exp (a :: lit), stack)
      else end_value (number lit) stack c
  | Dot lit =>
      if is_digit c then Some (Dot0 (a :: lit), stack) else None
  | Dot0 lit =>
      if is_digit c then Some (Dot0 (a :: lit), stack)
      else if (c =? 101) || (c =? 69) then Some (Exp (a :: lit), stack)
      else end_value (number lit) stack c
  | Exp lit =>
      if (c =? 43) || (c =? 45) then Some (ESign (a :: lit), stack)
      else if is_digit c then Some (E0 (a :: lit), stack)
      else None
  | ESign lit =>
      if is_digit c then Some (E0 (a :: lit), stack) else None
  | E0 lit =>
      if is_digit c then Some (E0 (a :: lit), stack)
      else end_value (number lit) stack c
  | Literal rest v =>
      match rest with
      | [] => None
      | r :: rest' =>
          if code r =? c then
            match rest' with
            | [] => Some (EndValue v, stack)
            | _ => Some (Literal rest' v, stack)
            end
          else None
      end
  | EndValue v => end_value v stack c
  | EndTop v => if is_space c then Some (EndTop v, stack) else None
  end.

Fixpoint scan (s : list ascii) (st : state) : option state :=
  match s with
  | [] => Some st
  | a :: s' =>
      match step st a with
      | Some st' => scan s' st'
      | None => None
      end
  end.

(** [checkValid] followed by a read of the one value of the text:
    [None] is a [SyntaxError]. At the end of the input the scanner is
    fed one space, as [scanner.eof] does. *)
Definition parse (data : string) : option value :=
  match scan (bytes data) (BeginValue, []) with
  | Some st =>
      match step st (byte_of 32) with
      | Some (EndTop v, []) => Some v
      | _ => None
      end
  | None => None
  end.

(** *** Writing a value *)

(** [appendString] with HTML escaping, as [Marshal] calls it. *)
Definition u00 (c : Z) : list ascii :=
  bytes "\u00" ++ [hex_digit (c / 16); hex_digit (c mod 16)].

Definition appendString_step (s : list ascii) : list ascii * nat :=
  match s with
  | [] => ([], 1%nat)
  | a :: _ =>
      let c := code a in
      if c <? 128 then
        if (c =? 92) || (c =? 34) then ([byte_of 92; a], 1%nat)
        else if c =? 8 then (bytes "\b", 1%nat)
        else if c =? 12 then (bytes "\f", 1%nat)
        else if c =? 10 then (bytes "\n", 1%nat)
        else if c =? 13 then (bytes "\r", 1%nat)
        else if c =? 9 then (bytes "\t", 1%nat)
        else if (c <? 32) || (c =? 60) || (c =? 62) || (c =? 38) then (u00 c, 1%nat)
        else ([a], 1%nat)
      else
        let '(r, size) := utf8.DecodeRune s in
        if (r =? utf8.RuneError) && (size =? 1)%nat then (bytes "\ufffd", 1%nat)
        else if r =? 8232 then (bytes "\u2028", size)
        else if r =? 8233 then (bytes "\u2029", size)
        else (take size s, size)
  end.

Definition quote (s : string) : string :=
  of_bytes ([dquote] ++ consume_from appendString_step 0 (bytes s) ++ [dquote]).

Definition join (sep : string) (l : list string) : string :=
  match l with
  | [] => EmptyString
  | x :: l' => foldl (fun acc y => acc +:+ sep +:+ y) x l'
  end.

(** The compact text [Marshal] writes for a value. *)
Fixpoint render (v : value) : string :=
  match v with
  | JNull => "null"
  | JBool true => "true"
  | JBool false => "false"
  | JNumber lit => lit
  | JString s => quote s
  | JArray l => "[" +:+ join "," (map render l) +:+ "]"
  | JObject ms =>
      "{" +:+ join "," (map (fun kv => quote kv.1 +:+ ":" +:+ render kv.2) ms) +:+ "}"
  end.

(** *** Errors of the package *)

Inductive error :=
| SyntaxError
  (** the text is not JSON *)
| UnmarshalTypeError (Value : string) (Type_ : string)
  (** a JSON value does not fit the Go type it is stored into *)
| InvalidUnmarshalError (Type_ : string)
  (** the destination is a nil pointer *)
| MarshalerError (Type_ : string)
  (** a value that cannot be encoded *)
| EOF
  (** [io.EOF]: a [Decoder] found no value in its stream *)
| ErrUnexpectedEOF
  (** [io.ErrUnexpectedEOF]: the stream of a [Decoder] ended inside a
      value *).

(** [d.saveError]: the first error is the one kept. *)
Definition first_error (e1 e2 : option error) : option error :=
  match e1 with
  | Some _ => e1
  | None => e2
  end.

(** *** Decoding into Go values

    [store v x] is what [Unmarshal] does with the JSON value [v] at a
    settable Go variable of type [T] holding [x]: the new content of the
    variable, and the type error it saved, if any (decoding goes on
    after such an error). *)
Class Target (T : Type) := {
  go_type : string;
  is_pointer : bool;
  store : value -> T -> T * option error
}.
Arguments go_type T {_}.
Arguments is_pointer T {_}.

Definition kind_of (v : value) : string :=
  match v with
  | JNull => "null"
  | JBool _ => "bool"
  | JNumber _ => "number"
  | JString _ => "string"
  | JArray _ => "array"
  | JObject _ => "object"
  end.

Definition mismatch {T} (ty : string) (v : value) (x : T) : T * option error :=
  (x, Some (UnmarshalTypeError (kind_of v) ty)).

(** [int]: a number literal is read by [strconv.ParseInt(lit, 10, 64)];
    [null] leaves the variable as it is. *)
#[global] Instance int_target : Target Z := {|
  go_type := "int";
  is_pointer := false;
  store v x :=
    match v with
    | JNull => (x, None)
    | JNumber lit =>
        match strconv.ParseInt10 lit 64 with
        | (n, None) => (n, None)
        | (_, Some _) => (x, Some (UnmarshalTypeError ("number " +:+ lit) "int"))
        end
    | _ => mismatch "int" v x
    end
|}.

#[global] Instance string_target : Target string := {|
  go_type := "string";
  is_pointer := false;
  store v x :=
    match v with
    | JNull => (x, None)
    | JString s => (s, None)
    | _ => mismatch "string" v x
    end
|}.

(** The zero value of a Go type. *)
Class Zero (T : Type) := zero : T.

(** A pointer [*T]. From the documentation of [Unmarshal]: to
    unmarshal JSON into a pointer, [Unmarshal] first handles the case of
    the JSON being the JSON literal [null]; in that case, [Unmarshal]
    sets the pointer to nil. Otherwise, [Unmarshal] unmarshals the JSON
    into the value pointed at by the pointer; if the pointer is nil,
    [Unmarshal] allocates a new value for it to point to. *)
#[global] Instance pointer_target {T} `{Target T} `{Zero T} : Target (option T) := {|
  go_type := "*" +:+ go_type T;
  is_pointer := true;
  store v p :=
    match v with
    | JNull => (None, None)
    | _ => let '(x, e) := store v (default zero p) in (Some x, e)
    end
|}.

(** [foldName], as far as it matters for a field name made of ASCII
    bytes: ASCII letters in upper case, and the two runes outside ASCII
    whose case folding reaches an ASCII letter, U+017F (long s) and
    U+212A (Kelvin sign). Other bytes are kept, which is not their
    folding, but no such key equals an ASCII name either way. *)
Definition foldName_step (s : list ascii) : list ascii * nat :=
  match s with
  | [] => ([], 1%nat)
  | c :: _ =>
      if is_lower (code c) then ([byte_of (code c - 32)], 1%nat)
      else if code c <? 128 then ([c], 1%nat)
      else
        let '(r, size) := utf8.DecodeRune s in
        if r =? 383 then ([byte_of 83], size)
        else if r =? 8490 then ([byte_of 75], size)
        else (take size s, size)
  end.
Definition foldName (s : string) : string := consume foldName_step s.

(** The field of a struct a key selects. From the documentation of
    [Unmarshal]: incoming object keys are matched to the keys used by
    [Marshal] (the struct field name or its tag), preferring an exact
    match but also accepting a case-insensitive match. *)
Definition find_field {F} (fields : list (string * F)) (key : string) : option F :=
  match List.find (fun f => String.eqb f.1 key) fields with
  | Some f => Some f.2
  | None =>
      match List.find (fun f => String.eqb (foldName f.1) (foldName key)) fields with
      | Some f => Some f.2
      | None => None
      end
  end.

Definition field_store (T : Type) : Type := value -> T -> T * option error.

Fixpoint store_members {T} (fields : list (string * field_store T))
    (ms : list (string * value)) (x : T) : T * option error :=
  match ms with
  | [] => (x, None)
  | (k, v) :: ms' =>
      let '(x1, e1) :=
        match find_field fields k with
        | Some st => st v x
        | None => (x, None)
        end in
      let '(x2, e2) := store_members fields ms' x1 in
      (x2, first_error e1 e2)
  end.

(** A struct: an object is stored member by member, [null] changes
    nothing, any other value is a type error. From the documentation of
    [Unmarshal]: if a JSON value is not appropriate for a given target
    type, [Unmarshal] skips that field and completes the unmarshaling as
    best it can, and returns an [UnmarshalTypeError] describing the
    earliest such error. *)
Definition store_struct {T} (ty : string) (fields : list (string * field_store T))
    (v : value) (x : T) : T * option error :=
  match v with
  | JNull => (x, None)
  | JObject ms => store_members fields ms x
  | _ => mismatch ty v x
  end.

(** The store of a field, from its getter and setter. *)
Definition field {T A} `{Target A} (get : T -> A) (set : A -> T -> T) : field_store T :=
  fun v x => let '(a, e) := store v (get x) in (set a x, e).

(** [map[string]string], [None] being the nil map: an object is stored
    into the map (made when it is nil), each member as a new string
    variable that is put in the map even when its value did not fit;
    [null] sets the map to nil. *)
Fixpoint store_string_members (ms : list (string * value)) (m : gmap string string)
    : gmap string string * option error :=
  match ms with
  | [] => (m, None)
  | (k, v) :: ms' =>
      let '(s, e1) := store v EmptyString in
      let '(m2, e2) := store_string_members ms' (<[k := s]> m) in
      (m2, first_error e1 e2)
  end.

#[global] Instance string_map_target : Target (option (gmap string string)) := {|
  go_type := "map[string]string";
  is_pointer := false;
  store v m :=
    match v with
    | JNull => (None, None)
    | JObject ms =>
        let '(m', e) := store_string_members ms (default ∅ m) in (Some m', e)
    | _ => mismatch "map[string]string" v m
    end
|}.

(** [map[string]*json.RawMessage]: a member is kept as JSON text, a
    [null] member as the nil pointer. The scanner above does not keep
    the bytes of a member, so the text kept here is the compact text of
    the value, not the original bytes. *)
Definition RawMessage : Type := string.

Definition store_raw_member (v : value) : option RawMessage :=
  match v with
  | JNull => None
  | _ => Some (render v)
  end.

#[global] Instance raw_map_target : Target (option (gmap string (option RawMessage))) := {|
  go_type := "map[string]*json.RawMessage";
  is_pointer := false;
  store v m :=
    match v with
    | JNull => (None, None)
    | JObject ms =>
        (Some (foldl (fun m kv => <[kv.1 := store_raw_member kv.2]> m) (default ∅ m) ms),
         None)
    | _ => mismatch "map[string]*json.RawMessage" v m
    end
|}.

(** [Unmarshal(data, p)], [p] being a pointer to a variable of type [T]
    ([None] for the nil pointer): the text is checked first, then the
    pointer, then the value is stored. The result is the content of the
    variable after the call and the error returned. *)
Definition Unmarshal {T} `{Target T} (data : string) (p : option T)
    : option T * option error :=
  match parse data with
  | None => (p, Some SyntaxError)
  | Some v =>
      match p with
      | None => (None, Some (InvalidUnmarshalError ("*" +:+ go_type T)))
      | Some x => let '(x', e) := store v x in (Some x', e)
      end
  end.

(** The next value of a stream, as [Decoder.Decode] reads it: an array
    or an object ends at its closing bracket, whatever follows; any
    other value ends at the space after it or at the end of the
    stream. *)
Fixpoint scan_first (s : list ascii) (st : state) (blank : bool) : value + error :=
  match s with
  | [] =>
      match step st (byte_of 32) with
      | Some (EndTop v, []) => inl v
      | _ => inr (if blank then EOF else ErrUnexpectedEOF)
      end
  | a :: s' =>
      match step st a with
      | None => inr SyntaxError
      | Some (EndTop v, []) => inl v
      | Some (EndValue (JArray l), []) => inl (JArray l)
      | Some (EndValue (JObject ms), []) => inl (JObject ms)
      | Some st' => scan_first s' st' (blank && is_space (code a))
      end
  end.

(** [NewDecoder(r).Decode(p)], [r] being a stream of the bytes
    [data] and [p] a pointer to a variable of type [T] holding [x]. *)
Definition Decode {T} `{Target T} (data : string) (x : T) : T * option error :=
  match scan_first (bytes data) (BeginValue, []) true with
  | inr e => (x, Some e)
  | inl v => store v x
  end.

(** [Unmarshal(data, p)] for a [p] that is the nil pointer of the type
    named [ty]. *)
Definition Unmarshal_nil (data : string) (ty : string) : option error :=
  match parse data with
  | None => Some SyntaxError
  | Some _ => Some (InvalidUnmarshalError ty)
  end.

(** [Unmarshal(data, &out)], [out] being an [interface{}] variable that
    holds a pointer to a variable of type [T] with content [x]: the
    value is stored into that variable. For [null] this is so only when
    [T] is itself a pointer type; otherwise [null] sets [out], a copy
    the caller does not see, to nil. The result is the content of the
    variable the pointer in [out] points to. *)
Definition Unmarshal_interface {T} `{Target T} (data : string) (x : T)
    : T * option error :=
  match parse data with
  | None => (x, Some SyntaxError)
  | Some JNull => if is_pointer T then store JNull x else (x, None)
  | Some v => store v x
  end.

(** *** Encoding Go values *)

(** What [Marshal] makes of a Go value of type [T]: the JSON value it
    writes, or the error it returns. *)
Class Marshaler (T : Type) := encode : T -> value + error.

#[global] Instance string_marshaler : Marshaler string := fun s => inl (JString s).
#[global] Instance bool_marshaler : Marshaler bool := fun b => inl (JBool b).
#[global] Instance value_marshaler : Marshaler value := fun v => inl v.

Fixpoint encode_all {T} `{Marshaler T} (l : list T) : list value + error :=
  match l with
  | [] => inl []
  | x :: l' =>
      match encode x with
      | inr e => inr e
      | inl v =>
          match encode_all l' with
          | inr e => inr e
          | inl vs => inl (v :: vs)
          end
      end
  end.

(** A slice, [None] being the nil slice, which is written [null]. *)
#[global] Instance slice_marshaler {T} `{Marshaler T} : Marshaler (option (list T)) :=
  fun l =>
    match l with
    | None => inl JNull
    | Some l =>
        match encode_all l with
        | inr e => inr e
        | inl vs => inl (JArray vs)
        end
    end.

(** A struct: its fields in the order of their declaration. *)
Fixpoint encode_fields (fs : list (string * (value + error))) : list (string * value) + error :=
  match fs with
  | [] => inl []
  | (k, r) :: fs' =>
      match r with
      | inr e => inr e
      | inl v =>
          match encode_fields fs' with
          | inr e => inr e
          | inl ms => inl ((k, v) :: ms)
          end
      end
  end.

Definition encode_struct (fs : list (string * (value + error))) : value + error :=
  match encode_fields fs with
  | inr e => inr e
  | inl ms => inl (JObject ms)
  end.

(** An [interface{}]: nil, or a value with its dynamic type, of which
    [Marshal] needs the encoder. The nil interface is written [null]. *)
Inductive any :=
| Nil
| Any (T : Type) (M : Marshaler T) (x : T).
Arguments Any {T} M x.
Definition box {T} `{M : Marshaler T} (x : T) : any := Any M x.

#[global] Instance any_marshaler : Marshaler any :=
  fun a =>
    match a with
    | Nil => inl JNull
    | Any M x => M x
    end.

(** [map[string]interface{}]. From the documentation of [Marshal]: map
    values encode as JSON objects; the map keys are sorted and used as
    JSON object keys. The order is that of the bytes of the keys. The
    first value that cannot be encoded makes the whole call fail. *)
Definition key_le {A} (a b : string * A) : Prop := String.leb a.1 b.1.

Definition sorted_entries {A} (m : gmap string A) : list (string * A) :=
  merge_sort key_le (map_to_list m).

#[global] Instance map_marshaler : Marshaler (gmap string any) :=
  fun m => encode_struct (map (fun kv => (kv.1, encode kv.2)) (sorted_entries m)).

(** [Marshal(x)]. *)
Definition Marshal {T} `{Marshaler T} (x : T) : string + error :=
  match encode x with
  | inr e => inr e
  | inl v => inl (render v)
  end.

End json.


(** ** net/textproto and net/http: header maps *)

Module http.

(** The bytes of a header field name ([validHeaderFieldByte]). *)
Definition validHeaderFieldByte (c : Z) : bool :=
  is_alpha c || is_digit c
  || existsb (Z.eqb c) (map code (bytes "!#$%&'*+-.^_`|~")).

Fixpoint canonical_from (upper : bool) (s : list ascii) : list ascii :=
  match s with
  | [] => []
  | a :: s' =>
      let c := code a in
      let a' :=
        if upper && is_lower c then byte_of (c - 32)
        else if negb upper && is_upper c then byte_of (c + 32)
        else a in
      a' :: canonical_from (code a' =? 45) s'
  end.

(** [textproto.CanonicalMIMEHeaderKey]: the first letter and each one
    after a hyphen in upper case, the others in lower case; a key with
    a byte that is not allowed in a field name is left as it is. *)
Definition CanonicalMIMEHeaderKey (s : string) : string :=
  if forallb (fun a => validHeaderFieldByte (code a)) (bytes s)
  then of_bytes (canonical_from true (bytes s))
  else s.

Definition Header : Type := gmap string (list string).

(** [Header.Get]: the first value under the canonical form of the key,
    the empty string when there is none. *)
Definition Get (h : Header) (key : string) : string :=
  match h !! CanonicalMIMEHeaderKey key with
  | Some (v :: _) => v
  | _ => EmptyString
  end.

Definition Set_ (h : Header) (key value : string) : Header :=
  <[CanonicalMIMEHeaderKey key := [value]]> h.

End http.

(** ** net/url *)

Module url.

(** [shouldEscape(c, encodeQueryComponent)]: all bytes but the
    unreserved ones. *)
Definition shouldEscape (c : Z) : bool :=
  negb (is_alpha c || is_digit c
        || (c =? 45) || (c =? 95) || (c =? 46) || (c =? 126)).

Definition QueryEscape (s : string) : string :=
  of_bytes
    (flat_map
       (fun a =>
          let c := code a in
          if c =? 32 then [byte_of 43]
          else if shouldEscape c
          then [byte_of 37; upper_hex_digit (c / 16); upper_hex_digit (c mod 16)]
          else [a])
       (bytes s)).

Definition Values : Type := gmap string (list string).

(** [Values.Set]. *)
Definition Set_ (v : Values) (key value : string) : Values := <[key := [value]]> v.

(** [Values.Encode]: [key=value] pairs, sorted by key, joined by [&]. *)
Definition Encode (v : Values) : string :=
  json.join "&"
    (flat_map
       (fun kv => map (fun x => QueryEscape kv.1 +:+ "=" +:+ QueryEscape x) kv.2)
       (json.sorted_entries v)).

End url.

(** ** Package scm *)

Module scm.

(** *** The client ([scm/client.go], not among the sources) *)

(** Modelled from the spec: the rate-limit snapshot of the Response
    Envelope, [{limit: int, remaining: int, resetEpoch: int64}]; the
    type [Rate] is declared in a file of the package that is missing,
    the field names are those [gitlab.go] uses. *)
Record Rate := { Limit : Z; Remaining : Z; Reset : Z }.

(** Modelled from the spec: the Response Envelope (status, request id,
    rate snapshot, headers, body); the type [Response] is declared in a
    missing file, the field names are those [gitlab.go] uses. The body
    is the sequence of bytes a reader gets from the stream. *)
Record Response := {
  ID : string;
  Status : Z;
  Header : http.Header;
  Body : string;
  Rate_ : Rate
}.

(** Modelled from the spec: a request is a method, a path and an
    optional body with its headers; the type [Request] is declared in a
    missing file. *)
Record Request := {
  Method : string;
  Path : string;
  ReqHeader : option http.Header;
  ReqBody : option string
}.

(** The failure of the transport, as [Client.Do] reports it. *)
Inductive TransportError := Transport (msg : string).

(** Modelled from the spec: the client holds the Rate Limiter State, a
    single snapshot that [SetRate] overwrites, and performs one HTTP
    exchange per call of [Do], which yields a response or a transport
    failure; [Client], [Do] and [SetRate] are declared in a missing
    file. *)
Record Client := {
  rate : Rate;
  Do : Request -> Response + TransportError
}.

Definition SetRate (c : Client) (r : Rate) : Client :=
  {| rate := r; Do := Do c |}.

(** *** The types of the hooks' fields declared in other files *)

(** [Repository], [Reference], [Action], [User], [Commit], [Issue],
    [Comment], [PullRequest] and [Review] are declared in files of the
    package that are not among the sources: they are parameters, each
    with what [json.Marshal] makes of its values. *)
Class Extern := {
  Repository : Type;
  Reference : Type;
  Action : Type;
  User : Type;
  Commit : Type;
  Issue : Type;
  Comment : Type;
  PullRequest : Type;
  Review : Type;
  Repository_json :: json.Marshaler Repository;
  Reference_json :: json.Marshaler Reference;
  Action_json :: json.Marshaler Action;
  User_json :: json.Marshaler User;
  Commit_json :: json.Marshaler Commit;
  Issue_json :: json.Marshaler Issue;
  Comment_json :: json.Marshaler Comment;
  PullRequest_json :: json.Marshaler PullRequest;
  Review_json :: json.Marshaler Review
}.
#[global] Existing Instances Repository_json Reference_json Action_json User_json
  Commit_json Issue_json Comment_json PullRequest_json Review_json.

(** *** webhook.go: the value types *)

Module Label.
Record t := { URL : string; Name : string; Description : string; Color : string }.
#[global] Instance json : json.Marshaler t := fun l =>
  json.encode_struct
    [("URL", json.encode (URL l)); ("Name", json.encode (Name l));
     ("Description", json.encode (Description l)); ("Color", json.encode (Color l))].
End Label.

Module PushCommit.
Record t := {
  ID : string;
  Message : string;
  Added : option (list string);
  Removed : option (list string);
  Modified : option (list string)
}.
#[global] Instance json : json.Marshaler t := fun c =>
  json.encode_struct
    [("ID", json.encode (ID c)); ("Message", json.encode (Message c));
     ("Added", json.encode (Added c)); ("Removed", json.encode (Removed c));
     ("Modified", json.encode (Modified c))].
End PushCommit.

Module PullRequestHookBranchFrom.
Record t := { From : string }.
#[global] Instance json : json.Marshaler t := fun b =>
  json.encode_struct [("From", json.encode (From b))].
End PullRequestHookBranchFrom.

Module PullRequestHookBranch.
Section with_extern.
Context `{Extern}.
Record t := {
  Ref : PullRequestHookBranchFrom.t;
  Sha : PullRequestHookBranchFrom.t;
  Repo : Repository
}.
#[global] Instance json : json.Marshaler t := fun b =>
  json.encode_struct
    [("Ref", json.encode (Ref b)); ("Sha", json.encode (Sha b));
     ("Repo", json.encode (Repo b))].
End with_extern.
End PullRequestHookBranch.

Module PullRequestHookChanges.
Section with_extern.
Context `{Extern}.
Record t := { Base : PullRequestHookBranch.t }.
#[global] Instance json : json.Marshaler t := fun c =>
  json.encode_struct [("Base", json.encode (Base c))].
End with_extern.
End PullRequestHookChanges.

(** *** webhook.go: the nine hooks, each with [Repository] and
    [MarshalJSON]

    [MarshalJSON] fills a [map[string]interface{}], the key [type]
    first, and hands it to [json.Marshal]. *)

Abbreviation hook_map := (gmap string json.any).

Module PushHook.
Section with_extern.
Context `{Extern}.
Record t := {
  Ref : string;
  BaseRef : string;
  Repo : Repository;
  Before : string;
  After : string;
  Created : bool;
  Deleted : bool;
  Forced : bool;
  Compare : string;
  Commits : option (list PushCommit.t);
  Commit_ : Commit;
  Sender : User;
  GUID : string
}.
Definition Repository (h : t) : Repository := Repo h.
Definition hook (h : t) : hook_map :=
  let hook : hook_map := ∅ in
  let hook := <["type" := json.box "pushHook"]> hook in
  let hook := <["ref" := json.box (Ref h)]> hook in
  let hook := <["baseRef" := json.box (BaseRef h)]> hook in
  let hook := <["repo" := json.box (Repo h)]> hook in
  let hook := <["before" := json.box (Before h)]> hook in
  let hook := <["after" := json.box (After h)]> hook in
  let hook := <["created" := json.box (Created h)]> hook in
  let hook := <["deleted" := json.box (Deleted h)]> hook in
  let hook := <["forced" := json.box (Forced h)]> hook in
  let hook := <["compare" := json.box (Compare h)]> hook in
  let hook := <["commits" := json.box (Commits h)]> hook in
  let hook := <["commit" := json.box (Commit_ h)]> hook in
  let hook := <["sender" := json.box (Sender h)]> hook in
  let hook := <["guid" := json.box (GUID h)]> hook in
  hook.
Definition MarshalJSON (h : t) : string + json.error := json.Marshal (hook h).
End with_extern.
End PushHook.

Module BranchHook.
Section with_extern.
Context `{Extern}.
Record t := {
  Ref : Reference;
  Repo : Repository;
  Action_ : Action;
  Sender : User
}.
Definition Repository (h : t) : Repository := Repo h.
Definition hook (h : t) : hook_map :=
  let hook : hook_map := ∅ in
  let hook := <["type" := json.box "branchHook"]> hook in
  let hook := <["ref" := json.box (Ref h)]> hook in
  let hook := <["repo" := json.box (Repo h)]> hook in
  let hook := <["action" := json.box (Action_ h)]> hook in
  let hook := <["sender" := json.box (Sender h)]> hook in
  hook.
Definition MarshalJSON (h : t) : string + json.error := json.Marshal (hook h).
End with_extern.
End BranchHook.

Module DeployHook.
Section with_extern.
Context `{Extern}.
Record t := {
  Data : json.any;
  Desc : string;
  Ref : Reference;
  Repo : Repository;
  Sender : User;
  Target : string;
  TargetURL : string;
  Task : string
}.
Definition Repository (h : t) : Repository := Repo h.
Definition hook (h : t) : hook_map :=
  let hook : hook_map := ∅ in
  let hook := <["type" := json.box "deployHook"]> hook in
  let hook := <["data" := Data h]> hook in
  let hook := <["desc" := json.box (Desc h)]> hook in
  let hook := <["ref" := json.box (Ref h)]> hook in
  let hook := <["repo" := json.box (Repo h)]> hook in
  let hook := <["sender" := json.box (Sender h)]> hook in
  let hook := <["target" := json.box (Target h)]> hook in
  let hook := <["targetUrl" := json.box (TargetURL h)]> hook in
  let hook := <["task" := json.box (Task h)]> hook in
  hook.
Definition MarshalJSON (h : t) : string + json.error := json.Marshal (hook h).
End with_extern.
End DeployHook.

Module TagHook.
Section with_extern.
Context `{Extern}.
Record t := {
  Ref : Reference;
  Repo : Repository;
  Action_ : Action;
  Sender : User
}.
Definition Repository (h : t) : Repository := Repo h.
Definition hook (h : t) : hook_map :=
  let hook : hook_map := ∅ in
  let hook := <["type" := json.box "tagHook"]> hook in
  let hook := <["ref" := json.box (Ref h)]> hook in
  let hook := <["repo" := json.box (Repo h)]> hook in
  let hook := <["action" := json.box (Action_ h)]> hook in
  let hook := <["sender" := json.box (Sender h)]> hook in
  hook.
Definition MarshalJSON (h : t) : string + json.error := json.Marshal (hook h).
End with_extern.
End TagHook.

Module IssueHook.
Section with_extern.
Context `{Extern}.
Record t := {
  Action_ : Action;
  Repo : Repository;
  Issue_ : Issue;
  Sender : User
}.
Definition Repository (h : t) : Repository := Repo h.
Definition hook (h : t) : hook_map :=
  let hook : hook_map := ∅ in
  let hook := <["type" := json.box "issueHook"]> hook in
  let hook := <["action" := json.box (Action_ h)]> hook in
  let hook := <["repo" := json.box (Repo h)]> hook in
  let hook := <["issue" := json.box (Issue_ h)]> hook in
  let hook := <["sender" := json.box (Sender h)]> hook in
  hook.
Definition MarshalJSON (h : t) : string + json.error := json.Marshal (hook h).
End with_extern.
End IssueHook.

Module IssueCommentHook.
Section with_extern.
Context `{Extern}.
Record t := {
  Action_ : Action;
  Repo : Repository;
  Issue_ : Issue;
  Comment_ : Comment;
  Sender : User
}.
Definition Repository (h : t) : Repository := Repo h.
Definition hook (h : t) : hook_map :=
  let hook : hook_map := ∅ in
  let hook := <["type" := json.box "issueCommentHook"]> hook in
  let hook := <["action" := json.box (Action_ h)]> hook in
  let hook := <["repo" := json.box (Repo h)]> hook in
  let hook := <["issue" := json.box (Issue_ h)]> hook in
  let hook := <["comment" := json.box (Comment_ h)]> hook in
  let hook := <["sender" := json.box (Sender h)]> hook in
  hook.
Definition MarshalJSON (h : t) : string + json.error := json.Marshal (hook h).
End with_extern.
End IssueCommentHook.

Module PullRequestHook.
Section with_extern.
Context `{Extern}.
Record t := {
  Action_ : Action;
  Repo : Repository;
  Label_ : Label.t;
  PullRequest_ : PullRequest;
  Sender : User;
  Changes : PullRequestHookChanges.t;
  GUID : string
}.
Definition Repository (h : t) : Repository := Repo h.
Definition hook (h : t) : hook_map :=
  let hook : hook_map := ∅ in
  let hook := <["type" := json.box "pullRequestHook"]> hook in
  let hook := <["action" := json.box (Action_ h)]> hook in
  let hook := <["repo" := json.box (Repo h)]> hook in
  let hook := <["label" := json.box (Label_ h)]> hook in
  let hook := <["pullRequest" := json.box (PullRequest_ h)]> hook in
  let hook := <["sender" := json.box (Sender h)]> hook in
  let hook := <["changes" := json.box (Changes h)]> hook in
  let hook := <["guid" := json.box (GUID h)]> hook in
  hook.
Definition MarshalJSON (h : t) : string + json.error := json.Marshal (hook h).
End with_extern.
End PullRequestHook.

Module PullRequestCommentHook.
Section with_extern.
Context `{Extern}.
Record t := {
  Action_ : Action;
  Repo : Repository;
  PullRequest_ : PullRequest;
  Comment_ : Comment;
  Sender : User
}.
Definition Repository (h : t) : Repository := Repo h.
Definition hook (h : t) : hook_map :=
  let hook : hook_map := ∅ in
  let hook := <["type" := json.box "pullRequestCommentHook"]> hook in
  let hook := <["action" := json.box (Action_ h)]> hook in
  let hook := <["repo" := json.box (Repo h)]> hook in
  let hook := <["pullRequest" := json.box (PullRequest_ h)]> hook in
  let hook := <["comment" := json.box (Comment_ h)]> hook in
  let hook := <["sender" := json.box (Sender h)]> hook in
  hook.
Definition MarshalJSON (h : t) : string + json.error := json.Marshal (hook h).
End with_extern.
End PullRequestCommentHook.

Module ReviewCommentHook.
Section with_extern.
Context `{Extern}.
Record t := {
  Action_ : Action;
  Repo : Repository;
  PullRequest_ : PullRequest;
  Review_ : Review
}.
Definition Repository (h : t) : Repository := Repo h.
Definition hook (h : t) : hook_map :=
  let hook : hook_map := ∅ in
  let hook := <["type" := json.box "reviewCommentHook"]> hook in
  let hook := <["action" := json.box (Action_ h)]> hook in
  let hook := <["repo" := json.box (Repo h)]> hook in
  let hook := <["pullRequest" := json.box (PullRequest_ h)]> hook in
  let hook := <["review" := json.box (Review_ h)]> hook in
  hook.
Definition MarshalJSON (h : t) : string + json.error := json.Marshal (hook h).
End with_extern.
End ReviewCommentHook.

(** *** webhook.go: the interface and its decoder *)

Section webhook.
Context `{Extern}.

(** The interface [Webhook]. The methods have pointer receivers, so
    the values of the interface are pointers to hooks, [None] being
    a nil pointer. *)
Inductive Webhook :=
| PushHookPtr (p : option PushHook.t)
| BranchHookPtr (p : option BranchHook.t)
| DeployHookPtr (p : option DeployHook.t)
| TagHookPtr (p : option TagHook.t)
| IssueHookPtr (p : option IssueHook.t)
| IssueCommentHookPtr (p : option IssueCommentHook.t)
| PullRequestHookPtr (p : option PullRequestHook.t)
| PullRequestCommentHookPtr (p : option PullRequestCommentHook.t)
| ReviewCommentHookPtr (p : option ReviewCommentHook.t).

Definition Repository_of (w : Webhook) : outcome Repository :=
  match w with
  | PushHookPtr p => through p PushHook.Repository
  | BranchHookPtr p => through p BranchHook.Repository
  | DeployHookPtr p => through p DeployHook.Repository
  | TagHookPtr p => through p TagHook.Repository
  | IssueHookPtr p => through p IssueHook.Repository
  | IssueCommentHookPtr p => through p IssueCommentHook.Repository
  | PullRequestHookPtr p => through p PullRequestHook.Repository
  | PullRequestCommentHookPtr p => through p PullRequestCommentHook.Repository
  | ReviewCommentHookPtr p => through p ReviewCommentHook.Repository
  end.

Definition MarshalJSON (w : Webhook) : outcome (string + json.error) :=
  match w with
  | PushHookPtr p => through p PushHook.MarshalJSON
  | BranchHookPtr p => through p BranchHook.MarshalJSON
  | DeployHookPtr p => through p DeployHook.MarshalJSON
  | TagHookPtr p => through p TagHook.MarshalJSON
  | IssueHookPtr p => through p IssueHook.MarshalJSON
  | IssueCommentHookPtr p => through p IssueCommentHook.MarshalJSON
  | PullRequestHookPtr p => through p PullRequestHook.MarshalJSON
  | PullRequestCommentHookPtr p => through p PullRequestCommentHook.MarshalJSON
  | ReviewCommentHookPtr p => through p ReviewCommentHook.MarshalJSON
  end.

(** [WebhookUnmarshaler]; [Webhook_] is [None] for the nil interface. *)
Record WebhookUnmarshaler := {
  Type_ : string;
  Webhook_ : option Webhook
}.

Definition set_Webhook (wu : WebhookUnmarshaler) (w : Webhook) : WebhookUnmarshaler :=
  {| Type_ := Type_ wu; Webhook_ := Some w |}.

(** [webhookMap["type"]]: the empty string when the key is missing
    or the map is nil. *)
Definition index (m : option (gmap string string)) (key : string) : string :=
  default EmptyString (default ∅ m !! key).

(** One branch of the chain: [var h *T], [json.Unmarshal(raw, h)]
    with that nil pointer, then [wu.Webhook = h]. *)
Definition branch (wu : WebhookUnmarshaler) (raw : string) (ty : string)
    (h : Webhook) : WebhookUnmarshaler * option json.error :=
  match json.Unmarshal_nil raw ty with
  | Some err => (wu, Some err)
  | None => (set_Webhook wu h, None)
  end.

(** [UnmarshalJSON] from the declaration of [webhookMap] on (lines
    330 to 419), [raw] being the bytes [*rawMessage]. *)
Definition UnmarshalJSON_chain (wu : WebhookUnmarshaler) (raw : string)
    : WebhookUnmarshaler * option json.error :=
  let webhookMap : option (gmap string string) := None in
  let '(webhookMap, err) := json.Unmarshal raw (Some webhookMap) in
  match err with
  | Some err => (wu, Some err)
  | None =>
      let ty := index (webhookMap ≫= id) "type" in
      if String.eqb ty "pushHook" then
        branch wu raw "*scm.PushHook" (PushHookPtr None)
      else if String.eqb ty "branchHook" then
        branch wu raw "*scm.BranchHook" (BranchHookPtr None)
      else if String.eqb ty "deployHook" then
        branch wu raw "*scm.DeployHook" (DeployHookPtr None)
      else if String.eqb ty "tagHook" then
        branch wu raw "*scm.TagHook" (TagHookPtr None)
      else if String.eqb ty "issueHook" then
        branch wu raw "*scm.IssueHook" (IssueHookPtr None)
      else if String.eqb ty "issueCommentHook" then
        branch wu raw "*scm.IssueHook" (IssueHookPtr None)
      else if String.eqb ty "pullRequestHook" then
        branch wu raw "*scm.IssueHook" (IssueHookPtr None)
      else if String.eqb ty "pullRequestCommentHook" then
        branch wu raw "*scm.IssueHook" (IssueHookPtr None)
      else if String.eqb ty "reviewCommentHook" then
        branch wu raw "*scm.IssueHook" (IssueHookPtr None)
      else (wu, None)
  end.

(** [(wu *WebhookUnmarshaler) UnmarshalJSON(b)]: what the call does,
    with the content of [wu] after it and the error returned.
    [rawMessage] is declared and never assigned, so it is the nil
    pointer where [*rawMessage] is evaluated. *)
Definition UnmarshalJSON (wu : WebhookUnmarshaler) (b : string)
    : outcome (WebhookUnmarshaler * option json.error) :=
  let objMap : option (gmap string (option json.RawMessage)) := None in
  let '(objMap, err) := json.Unmarshal b (Some objMap) in
  match err with
  | Some err => Returns (wu, Some err)
  | None =>
      let rawMessage : option json.RawMessage := None in
      match rawMessage with
      | None => Panics NilPointerDereference
      | Some raw => Returns (UnmarshalJSON_chain wu raw)
      end
  end.

End webhook.

End scm.

(** ** Package gitlab *)

Module gitlab.

Record gl_namespace := {
  ID : Z;
  Name : string;
  Path : string;
  Kind : string;
  FullPath : string;
  ParentID : Z;
  AvatarURL : string;
  WebURL : string
}.

#[global] Instance gl_namespace_zero : json.Zero gl_namespace := {|
  ID := 0; Name := EmptyString; Path := EmptyString; Kind := EmptyString;
  FullPath := EmptyString; ParentID := 0; AvatarURL := EmptyString;
  WebURL := EmptyString
|}.

Definition set_ID (a : Z) (n : gl_namespace) : gl_namespace :=
  {| ID := a; Name := Name n; Path := Path n; Kind := Kind n; FullPath := FullPath n;
     ParentID := ParentID n; AvatarURL := AvatarURL n; WebURL := WebURL n |}.
Definition set_Name (a : string) (n : gl_namespace) : gl_namespace :=
  {| ID := ID n; Name := a; Path := Path n; Kind := Kind n; FullPath := FullPath n;
     ParentID := ParentID n; AvatarURL := AvatarURL n; WebURL := WebURL n |}.
Definition set_Path (a : string) (n : gl_namespace) : gl_namespace :=
  {| ID := ID n; Name := Name n; Path := a; Kind := Kind n; FullPath := FullPath n;
     ParentID := ParentID n; AvatarURL := AvatarURL n; WebURL := WebURL n |}.
Definition set_Kind (a : string) (n : gl_namespace) : gl_namespace :=
  {| ID := ID n; Name := Name n; Path := Path n; Kind := a; FullPath := FullPath n;
     ParentID := ParentID n; AvatarURL := AvatarURL n; WebURL := WebURL n |}.
Definition set_FullPath (a : string) (n : gl_namespace) : gl_namespace :=
  {| ID := ID n; Name := Name n; Path := Path n; Kind := Kind n; FullPath := a;
     ParentID := ParentID n; AvatarURL := AvatarURL n; WebURL := WebURL n |}.
Definition set_ParentID (a : Z) (n : gl_namespace) : gl_namespace :=
  {| ID := ID n; Name := Name n; Path := Path n; Kind := Kind n; FullPath := FullPath n;
     ParentID := a; AvatarURL := AvatarURL n; WebURL := WebURL n |}.
Definition set_AvatarURL (a : string) (n : gl_namespace) : gl_namespace :=
  {| ID := ID n; Name := Name n; Path := Path n; Kind := Kind n; FullPath := FullPath n;
     ParentID := ParentID n; AvatarURL := a; WebURL := WebURL n |}.
Definition set_WebURL (a : string) (n : gl_namespace) : gl_namespace :=
  {| ID := ID n; Name := Name n; Path := Path n; Kind := Kind n; FullPath := FullPath n;
     ParentID := ParentID n; AvatarURL := AvatarURL n; WebURL := a |}.

(** The fields with their [json] tags. *)
Definition gl_namespace_fields : list (string * json.field_store gl_namespace) :=
  [("id", json.field ID set_ID);
   ("name", json.field Name set_Name);
   ("path", json.field Path set_Path);
   ("kind", json.field Kind set_Kind);
   ("full_path", json.field FullPath set_FullPath);
   ("parent_id", json.field ParentID set_ParentID);
   ("avatar_url", json.field AvatarURL set_AvatarURL);
   ("web_url", json.field WebURL set_WebURL)].

#[global] Instance gl_namespace_target : json.Target gl_namespace := {|
  json.go_type := "gitlab.gl_namespace";
  json.is_pointer := false;
  json.store := json.store_struct "gitlab.gl_namespace" gl_namespace_fields
|}.

(** [Error] represents a GitLab error. *)
Record Error := { Message : string }.

#[global] Instance Error_zero : json.Zero Error := {| Message := EmptyString |}.

Definition Error_fields : list (string * json.field_store Error) :=
  [("message", json.field Message (fun a _ => {| Message := a |}))].

#[global] Instance Error_target : json.Target Error := {|
  json.go_type := "gitlab.Error";
  json.is_pointer := false;
  json.store := json.store_struct "gitlab.Error" Error_fields
|}.

(** [func (e *Error) Error() string]. *)
Definition Error_Error (e : option Error) : outcome string := through e Message.

(** The values of the interface [error] that [do] and
    [do_gl_namespace] return. *)
Inductive error :=
| TransportFailure (e : scm.TransportError)
  (** what [Client.Do] returned *)
| JSON (e : json.error)
  (** what [json.Unmarshal] returned *)
| ErrorPtr (e : option Error)
  (** a [*Error], [None] being the nil pointer *).

(** A computation that may panic and that updates the client. *)
Definition M (A : Type) : Type := scm.Client -> outcome A * scm.Client.

(** The request: when [in] is not nil it is written as JSON to the
    body (what the encoder returns is dropped: when it fails the body
    is empty). *)
Definition request (method path : string) (in_ : json.any) : scm.Request :=
  match in_ with
  | json.Nil =>
      {| scm.Method := method; scm.Path := path;
         scm.ReqHeader := None; scm.ReqBody := None |}
  | _ =>
      let buf :=
        match json.Marshal in_ with
        | inl text => text +:+ newline
        | inr _ => EmptyString
        end in
      {| scm.Method := method; scm.Path := path;
         scm.ReqHeader := Some (http.Set_ ∅ "Content-Type" "application/json");
         scm.ReqBody := Some buf |}
  end.

(** The request id and the rate limit details, parsed from the
    headers and stored in the response; what [Atoi] and [ParseInt]
    report is dropped. *)
Definition parse_headers (res : scm.Response) : scm.Response :=
  let h := scm.Header res in
  {| scm.ID := http.Get h "X-Request-Id";
     scm.Status := scm.Status res;
     scm.Header := h;
     scm.Body := scm.Body res;
     scm.Rate_ :=
       {| scm.Limit := (strconv.Atoi (http.Get h "RateLimit-Limit")).1;
          scm.Remaining := (strconv.Atoi (http.Get h "RateLimit-Remaining")).1;
          scm.Reset := (strconv.ParseInt10 (http.Get h "RateLimit-Reset") 64).1 |} |}.

(** The result of [do] and [do_gl_namespace]: the response, the error,
    and the content after the call of the variable that [out] points
    to ([None] when [out] is the nil interface). *)
Definition result (T : Type) : Type := option scm.Response * option error * option T.

(** [do]: [out] is [None] for the nil interface, [Some x] for a
    pointer to a variable of type [T] holding [x]. *)
Definition do {T} `{json.Target T} (method path : string) (in_ : json.any)
    (out : option T) : M (result T) := fun c =>
  let req := request method path in_ in
  match scm.Do c req with
  | inr err => (Returns (None, Some (TransportFailure err), out), c)
  | inl res =>
      let res := parse_headers res in
      let c := scm.SetRate c (scm.Rate_ res) in
      if 300 <? scm.Status res then
        let str_buf := scm.Body res in
        let err_i : option Error := Some json.zero in
        let '(p, _) := json.Unmarshal str_buf (Some err_i) in
        let err_i := default err_i p in
        (Returns (Some res, Some (ErrorPtr err_i), out), c)
      else
        match out with
        | None => (Returns (Some res, None, None), c)
        | Some x =>
            let str_buf := scm.Body res in
            let '(x', e) := json.Unmarshal_interface str_buf x in
            (Returns (Some res, JSON <$> e, Some x'), c)
        end
  end.

(** [do_gl_namespace]. *)
Definition do_gl_namespace {T} `{json.Target T} (method path : string)
    (in_ : json.any) (out : option T) : M (result T) := fun c =>
  let req := request method path in_ in
  match scm.Do c req with
  | inr err => (Returns (None, Some (TransportFailure err), out), c)
  | inl res =>
      let res := parse_headers res in
      let c := scm.SetRate c (scm.Rate_ res) in
      if 300 <? scm.Status res then
        let err : Error := json.zero in
        let '(err, _) := json.Decode (scm.Body res) err in
        (Returns (Some res, Some (ErrorPtr (Some err)), out), c)
      else
        match out with
        | None => (Returns (Some res, None, None), c)
        | Some x =>
            let str_buf := scm.Body res in
            match slice str_buf 1 (Z.of_nat (String.length str_buf) - 1) with
            | Panics p => (Panics p, c)
            | Returns new_str =>
                let '(x', e) := json.Unmarshal_interface new_str x in
                (Returns (Some res, JSON <$> e, Some x'), c)
            end
        end
  end.

(** [findNamespaceByName]: the namespace pointer and the error. [out]
    is a [*gl_namespace] and [do] is given [&out]. *)
Definition findNamespaceByName (name : string)
    : M (option gl_namespace * option error) := fun c =>
  let in_ := url.Set_ ∅ "search" name in
  let path := "api/v4/namespaces?" +:+ url.Encode in_ in
  let out : option gl_namespace := Some json.zero in
  match do "GET" path json.Nil (Some out) c with
  | (Panics p, c) => (Panics p, c)
  | (Returns (_, err, out'), c) => (Returns (default out out', err), c)
  end.

(** *** Label events *)

(** The types [user] and [label] and the functions [convertUser] and
    [convertLabel] are declared in files of the package that are not
    among the sources, and [time.Time] is the library's: they are
    parameters. A converter returns a pointer, [None] being nil. *)
Class Converters `{scm.Extern} := {
  user : Type;
  label : Type;
  Time : Type;
  convertUser : user -> option scm.User;
  convertLabel : label -> option scm.Label.t
}.

Module labelEvent.
Section with_converters.
Context `{Converters}.
Record t := {
  ID : Z;
  Action : string;
  CreatedAt : option Time;
  ResourceType : string;
  ResourceID : Z;
  User : user;
  Label : label
}.
End with_converters.
End labelEvent.

(** [scm.ListedIssueEvent] is declared in a missing file of package scm;
    its fields are those the composite literal of [convertLabelEvent]
    names. *)
Module ListedIssueEvent.
Section with_converters.
Context `{Converters}.
Record t := {
  Event : string;
  Actor : scm.User;
  Label : scm.Label.t;
  Created : Time
}.
End with_converters.
End ListedIssueEvent.

Section label_events.
Context `{Converters}.

(** [convertLabelEvent]: [from] is a pointer; the fields of the result
    are evaluated in the order of the literal, and each of [from.Action],
    [*convertUser(..)], [*convertLabel(..)] and [*from.CreatedAt]
    dereferences a pointer. *)
Definition convertLabelEvent (from : option labelEvent.t) : outcome ListedIssueEvent.t :=
  match from with
  | None => Panics NilPointerDereference
  | Some from =>
      let event := "labeled" in
      let event :=
        if String.eqb (labelEvent.Action from) "remove" then "unlabeled" else event in
      match convertUser (labelEvent.User from) with
      | None => Panics NilPointerDereference
      | Some actor =>
          match convertLabel (labelEvent.Label from) with
          | None => Panics NilPointerDereference
          | Some lab =>
              match labelEvent.CreatedAt from with
              | None => Panics NilPointerDereference
              | Some created =>
                  Returns {| ListedIssueEvent.Event := event;
                             ListedIssueEvent.Actor := actor;
                             ListedIssueEvent.Label := lab;
                             ListedIssueEvent.Created := created |}
              end
          end
      end
  end.

(** The loop of [convertLabelEvents]: [answer] is the slice built so
    far, [None] being the nil slice it starts as. *)
Fixpoint convertLabelEvents_from (src : list (option labelEvent.t))
    (answer : option (list ListedIssueEvent.t))
    : outcome (option (list ListedIssueEvent.t)) :=
  match src with
  | [] => Returns answer
  | from :: rest =>
      match convertLabelEvent from with
      | Panics p => Panics p
      | Returns event => convertLabelEvents_from rest (Some (default [] answer ++ [event]))
      end
  end.

(** [convertLabelEvents]: the slice of pointers [src] is a list, the
    answer is [None] for the nil slice. *)
Definition convertLabelEvents (src : list (option labelEvent.t))
    : outcome (option (list ListedIssueEvent.t)) :=
  convertLabelEvents_from src None.

End label_events.

End gitlab.

(** * Sample values and the notions of the specification *)

(** ** Sample values

    The types of package scm that are declared in missing files are
    instantiated, for the closed examples, by the JSON value
    [json.Marshal] writes for the Go value: [{}] stands for a struct,
    [0] for an [Action]. *)
Definition json_images : scm.Extern := {|
  scm.Repository := json.value;
  scm.Reference := json.value;
  scm.Action := json.value;
  scm.User := json.value;
  scm.Commit := json.value;
  scm.Issue := json.value;
  scm.Comment := json.value;
  scm.PullRequest := json.value;
  scm.Review := json.value
|}.

Section sample_values.
#[local] Existing Instance json_images.

Definition obj0 : json.value := json.JObject [].
Definition act0 : json.value := json.JNumber "0".

Definition label0 : scm.Label.t :=
{| scm.Label.URL := EmptyString; scm.Label.Name := EmptyString;
   scm.Label.Description := EmptyString; scm.Label.Color := EmptyString |}.

Definition from0 : scm.PullRequestHookBranchFrom.t :=
{| scm.PullRequestHookBranchFrom.From := EmptyString |}.

Definition base0 : scm.PullRequestHookBranch.t (H := json_images) :=
{| scm.PullRequestHookBranch.Ref := from0;
   scm.PullRequestHookBranch.Sha := from0;
   scm.PullRequestHookBranch.Repo := obj0 |}.

Definition changes0 : scm.PullRequestHookChanges.t (H := json_images) :=
{| scm.PullRequestHookChanges.Base := base0 |}.

Definition commit1 : scm.PushCommit.t :=
{| scm.PushCommit.ID := "c0ffee"; scm.PushCommit.Message := "fix";
   scm.PushCommit.Added := Some ["a.go"]; scm.PushCommit.Removed := Some [];
   scm.PushCommit.Modified := None |}.

Definition push0 : scm.PushHook.t (H := json_images) :=
{| scm.PushHook.Ref := "refs/heads/main"; scm.PushHook.BaseRef := EmptyString;
   scm.PushHook.Repo := obj0; scm.PushHook.Before := EmptyString;
   scm.PushHook.After := EmptyString; scm.PushHook.Created := false;
   scm.PushHook.Deleted := false; scm.PushHook.Forced := false;
   scm.PushHook.Compare := EmptyString; scm.PushHook.Commits := Some [commit1];
   scm.PushHook.Commit_ := obj0; scm.PushHook.Sender := obj0;
   scm.PushHook.GUID := EmptyString |}.

Definition branch0 : scm.BranchHook.t (H := json_images) :=
{| scm.BranchHook.Ref := obj0; scm.BranchHook.Repo := obj0;
   scm.BranchHook.Action_ := act0; scm.BranchHook.Sender := obj0 |}.

Definition deploy0 : scm.DeployHook.t (H := json_images) :=
{| scm.DeployHook.Data := json.Nil; scm.DeployHook.Desc := EmptyString;
   scm.DeployHook.Ref := obj0; scm.DeployHook.Repo := obj0;
   scm.DeployHook.Sender := obj0; scm.DeployHook.Target := EmptyString;
   scm.DeployHook.TargetURL := EmptyString; scm.DeployHook.Task := EmptyString |}.

Definition tag0 : scm.TagHook.t (H := json_images) :=
{| scm.TagHook.Ref := obj0; scm.TagHook.Repo := obj0;
   scm.TagHook.Action_ := act0; scm.TagHook.Sender := obj0 |}.

Definition issue0 : scm.IssueHook.t (H := json_images) :=
{| scm.IssueHook.Action_ := act0; scm.IssueHook.Repo := obj0;
   scm.IssueHook.Issue_ := obj0; scm.IssueHook.Sender := obj0 |}.

Definition issue_comment0 : scm.IssueCommentHook.t (H := json_images) :=
{| scm.IssueCommentHook.Action_ := act0; scm.IssueCommentHook.Repo := obj0;
   scm.IssueCommentHook.Issue_ := obj0; scm.IssueCommentHook.Comment_ := obj0;
   scm.IssueCommentHook.Sender := obj0 |}.

Definition pull_request0 : scm.PullRequestHook.t (H := json_images) :=
{| scm.PullRequestHook.Action_ := act0; scm.PullRequestHook.Repo := obj0;
   scm.PullRequestHook.Label_ := label0; scm.PullRequestHook.PullRequest_ := obj0;
   scm.PullRequestHook.Sender := obj0; scm.PullRequestHook.Changes := changes0;
   scm.PullRequestHook.GUID := EmptyString |}.

Definition pull_request_comment0 : scm.PullRequestCommentHook.t (H := json_images) :=
{| scm.PullRequestCommentHook.Action_ := act0; scm.PullRequestCommentHook.Repo := obj0;
   scm.PullRequestCommentHook.PullRequest_ := obj0;
   scm.PullRequestCommentHook.Comment_ := obj0;
   scm.PullRequestCommentHook.Sender := obj0 |}.

Definition review_comment0 : scm.ReviewCommentHook.t (H := json_images) :=
{| scm.ReviewCommentHook.Action_ := act0; scm.ReviewCommentHook.Repo := obj0;
   scm.ReviewCommentHook.PullRequest_ := obj0; scm.ReviewCommentHook.Review_ := obj0 |}.

(** One hook of each of the nine variants. *)
Definition samples : list (scm.Webhook (H := json_images)) :=
[scm.PushHookPtr (Some push0); scm.BranchHookPtr (Some branch0);
 scm.TagHookPtr (Some tag0); scm.DeployHookPtr (Some deploy0);
 scm.IssueHookPtr (Some issue0); scm.IssueCommentHookPtr (Some issue_comment0);
 scm.PullRequestHookPtr (Some pull_request0);
 scm.PullRequestCommentHookPtr (Some pull_request_comment0);
 scm.ReviewCommentHookPtr (Some review_comment0)].

Definition wu0 : scm.WebhookUnmarshaler (H := json_images) :=
{| scm.Type_ := EmptyString; scm.Webhook_ := None |}.

End sample_values.

(** A client whose transport answers every request with [r], and the
    response with a status, headers and a body as the transport hands it
    over. *)
Definition rate0 : scm.Rate := {| scm.Limit := 0; scm.Remaining := 0; scm.Reset := 0 |}.

Definition response (status : Z) (h : http.Header) (body : string) : scm.Response :=
  {| scm.ID := EmptyString; scm.Status := status; scm.Header := h;
     scm.Body := body; scm.Rate_ := rate0 |}.

Definition serving (r : scm.Response) : scm.Client :=
  {| scm.rate := rate0; scm.Do := fun _ => inl r |}.

(** A client whose transport knows one request only, the search of the
    namespace [acme], and answers it as the namespace-listing endpoint
    does, with an array. *)
Definition acme_body : string := js "[{'id':1,'name':'acme'}]".

Definition namespaces_endpoint : scm.Client :=
  {| scm.rate := rate0;
     scm.Do := fun req =>
       if String.eqb (scm.Method req) "GET"
          && String.eqb (scm.Path req) "api/v4/namespaces?search=acme"
       then inl (response 200 ∅ acme_body)
       else inr (scm.Transport "no such endpoint") |}.

Definition acme : gitlab.gl_namespace :=
  gitlab.set_Name "acme" (gitlab.set_ID 1 json.zero).

(** The headers of the example of the specification, and headers with
    a limit that does not fit in 64 bits. *)
Definition quota_headers : http.Header :=
  http.Set_ (http.Set_ (http.Set_ ∅ "RateLimit-Limit" "600")
               "RateLimit-Remaining" "599")
    "RateLimit-Reset" "1700000000".

Definition huge_limit_headers : http.Header :=
  http.Set_ ∅ "RateLimit-Limit" "99999999999999999999".

(** The request [findNamespaceByName] sends for [name]. *)
Definition lookup_request (name : string) : scm.Request :=
  gitlab.request "GET" ("api/v4/namespaces?" +:+ url.Encode (url.Set_ ∅ "search" name))
    json.Nil.

(** The discriminator table of the specification. *)
Definition discriminator `{scm.Extern} (w : scm.Webhook) : string :=
  match w with
  | scm.PushHookPtr _ => "pushHook"
  | scm.BranchHookPtr _ => "branchHook"
  | scm.TagHookPtr _ => "tagHook"
  | scm.DeployHookPtr _ => "deployHook"
  | scm.IssueHookPtr _ => "issueHook"
  | scm.IssueCommentHookPtr _ => "issueCommentHook"
  | scm.PullRequestHookPtr _ => "pullRequestHook"
  | scm.PullRequestCommentHookPtr _ => "pullRequestCommentHook"
  | scm.ReviewCommentHookPtr _ => "reviewCommentHook"
  end.

Definition discriminators : list string :=
  ["pushHook"; "branchHook"; "tagHook"; "deployHook"; "issueHook";
   "issueCommentHook"; "pullRequestHook"; "pullRequestCommentHook";
   "reviewCommentHook"].

(** Decoding what encoding wrote: the outcome of [UnmarshalJSON] on the
    bytes [MarshalJSON] returns for [w]. *)
Definition decode_encoded `{scm.Extern} (wu : scm.WebhookUnmarshaler) (w : scm.Webhook)
    : outcome (scm.WebhookUnmarshaler * option json.error) :=
  match scm.MarshalJSON w with
  | Panics p => Panics p
  | Returns (inr e) => Returns (wu, Some e)
  | Returns (inl text) => scm.UnmarshalJSON wu text
  end.

(** The key of the first member of an object. *)
Definition first_key (v : json.value) : option string :=
  match v with
  | json.JObject ((k, _) :: _) => Some k
  | _ => None
  end.

(** The members written before [type]: all their keys are smaller. *)
Definition before_type (others : list (string * json.value)) : Prop :=
  Forall (fun kv => String.ltb kv.1 "type" = true) others.

(** The text written for the sample branch hook. *)
Definition branch0_text : string :=
  js "{'action':0,'ref':{},'repo':{},'sender':{},'type':'branchHook'}".

(** The client after an exchange that gave [res]: its state is the
    snapshot read from the headers of [res]. *)
Definition observed (c : scm.Client) (res : scm.Response) : scm.Client :=
  scm.SetRate c (scm.Rate_ (gitlab.parse_headers res)).

(** ** Notions used by the further properties *)

(** The map a hook hands to [json.Marshal], read through the pointer. *)
Definition hook_map_of `{scm.Extern} (w : scm.Webhook) : outcome scm.hook_map :=
  match w with
  | scm.PushHookPtr p => through p scm.PushHook.hook
  | scm.BranchHookPtr p => through p scm.BranchHook.hook
  | scm.DeployHookPtr p => through p scm.DeployHook.hook
  | scm.TagHookPtr p => through p scm.TagHook.hook
  | scm.IssueHookPtr p => through p scm.IssueHook.hook
  | scm.IssueCommentHookPtr p => through p scm.IssueCommentHook.hook
  | scm.PullRequestHookPtr p => through p scm.PullRequestHook.hook
  | scm.PullRequestCommentHookPtr p => through p scm.PullRequestCommentHook.hook
  | scm.ReviewCommentHookPtr p => through p scm.ReviewCommentHook.hook
  end.

(** The keys of the object written for each variant, in the order they
    are written. *)
Definition wire_keys `{scm.Extern} (w : scm.Webhook) : list string :=
  match w with
  | scm.PushHookPtr _ =>
      ["after"; "baseRef"; "before"; "commit"; "commits"; "compare"; "created";
       "deleted"; "forced"; "guid"; "ref"; "repo"; "sender"; "type"]
  | scm.BranchHookPtr _ => ["action"; "ref"; "repo"; "sender"; "type"]
  | scm.DeployHookPtr _ =>
      ["data"; "desc"; "ref"; "repo"; "sender"; "target"; "targetUrl"; "task"; "type"]
  | scm.TagHookPtr _ => ["action"; "ref"; "repo"; "sender"; "type"]
  | scm.IssueHookPtr _ => ["action"; "issue"; "repo"; "sender"; "type"]
  | scm.IssueCommentHookPtr _ => ["action"; "comment"; "issue"; "repo"; "sender"; "type"]
  | scm.PullRequestHookPtr _ =>
      ["action"; "changes"; "guid"; "label"; "pullRequest"; "repo"; "sender"; "type"]
  | scm.PullRequestCommentHookPtr _ =>
      ["action"; "comment"; "pullRequest"; "repo"; "sender"; "type"]
  | scm.ReviewCommentHookPtr _ => ["action"; "pullRequest"; "repo"; "review"; "type"]
  end.

(** The pointer type each branch of the decoding chain declares for the
    type it compares with. *)
Definition branch_type (ty : string) : string :=
  if String.eqb ty "pushHook" then "*scm.PushHook"
  else if String.eqb ty "branchHook" then "*scm.BranchHook"
  else if String.eqb ty "deployHook" then "*scm.DeployHook"
  else if String.eqb ty "tagHook" then "*scm.TagHook"
  else "*scm.IssueHook".

(** A decimal numeral: the digits [ds], most significant first, as a
    text, and the number it denotes. *)
Definition digit_byte (d : Z) : ascii := byte_of (48 + d).
Definition numeral (ds : list Z) : string := of_bytes (map digit_byte ds).
Definition numeral_value (ds : list Z) : Z := foldl (fun n d => n * 10 + d) 0 ds.
Definition is_digits (ds : list Z) : Prop := Forall (fun d => 0 ≤ d ≤ 9) ds.

(** The bytes a query component is made of once escaped: letters,
    digits, [-], [_], [.], [~], and [+] and [%] from the escapes. *)
Definition query_safe (a : ascii) : bool :=
  let c := code a in
  is_alpha c || is_digit c || (c =? 45) || (c =? 95) || (c =? 46) || (c =? 126)
  || (c =? 43) || (c =? 37).

(** A member that does not change the message of an [Error]: its key
    does not name the field, or its value is not a string. *)
Definition keeps_message (kv : string * json.value) : Prop :=
  json.foldName kv.1 ≠ "MESSAGE" ∨ ∀ s, kv.2 ≠ json.JString s.

(** What [convertLabelEvent] makes of the event [from] points to: the
    event [e]. *)
Definition converted `{gitlab.Converters} (from : option gitlab.labelEvent.t)
    (e : gitlab.ListedIssueEvent.t) : Prop :=
  ∃ f, from = Some f
       ∧ gitlab.ListedIssueEvent.Event e
         = (if String.eqb (gitlab.labelEvent.Action f) "remove"
            then "unlabeled" else "labeled")
       ∧ gitlab.convertUser (gitlab.labelEvent.User f)
         = Some (gitlab.ListedIssueEvent.Actor e)
       ∧ gitlab.convertLabel (gitlab.labelEvent.Label f)
         = Some (gitlab.ListedIssueEvent.Label e)
       ∧ gitlab.labelEvent.CreatedAt f = Some (gitlab.ListedIssueEvent.Created e).

(** An element of the source slice that cannot be converted: a nil
    pointer, an event without a creation time, or one whose user or
    label converts to a nil pointer. *)
Definition unconvertible `{gitlab.Converters} (from : option gitlab.labelEvent.t) : Prop :=
  match from with
  | None => True
  | Some f =>
      gitlab.convertUser (gitlab.labelEvent.User f) = None
      ∨ gitlab.convertLabel (gitlab.labelEvent.Label f) = None
      ∨ gitlab.labelEvent.CreatedAt f = None
  end.

(** Sample converters and label events: users and labels are names,
    times are seconds. *)
Section sample_events.
#[local] Existing Instance json_images.

Definition name_converters : gitlab.Converters := {|
  gitlab.user := string;
  gitlab.label := string;
  gitlab.Time := Z;
  gitlab.convertUser := fun u => Some (json.JString u);
  gitlab.convertLabel := fun l =>
    Some {| scm.Label.URL := EmptyString; scm.Label.Name := l;
            scm.Label.Description := EmptyString; scm.Label.Color := EmptyString |}
|}.
#[local] Existing Instance name_converters.

Definition label_event (action : string) (created : option Z) : gitlab.labelEvent.t :=
  {| gitlab.labelEvent.ID := 1; gitlab.labelEvent.Action := action;
     gitlab.labelEvent.CreatedAt := created;
     gitlab.labelEvent.ResourceType := "issue"; gitlab.labelEvent.ResourceID := 7;
     gitlab.labelEvent.User := "alice"; gitlab.labelEvent.Label := "bug" |}.

Definition listed_event (event : string) (created : Z) : gitlab.ListedIssueEvent.t :=
  {| gitlab.ListedIssueEvent.Event := event;
     gitlab.ListedIssueEvent.Actor := json.JString "alice";
     gitlab.ListedIssueEvent.Label :=
       {| scm.Label.URL := EmptyString; scm.Label.Name := "bug";
          scm.Label.Description := EmptyString; scm.Label.Color := EmptyString |};
     gitlab.ListedIssueEvent.Created := created |}.

End sample_events.

(** Further sample values: a deploy hook whose [Data] holds a value
    [json.Marshal] cannot encode (a channel), a client whose transport
    fails, and a client that answers the path [first] with the quota
    headers and every other path with a limit of 10 and status 404. *)
Definition unencodable : json.any :=
  json.Any (fun _ : unit => inr (json.MarshalerError "chan int")) tt.

Section further_samples.
#[local] Existing Instance json_images.

Definition deploy_chan : scm.DeployHook.t (H := json_images) :=
{| scm.DeployHook.Data := unencodable; scm.DeployHook.Desc := EmptyString;
   scm.DeployHook.Ref := obj0; scm.DeployHook.Repo := obj0;
   scm.DeployHook.Sender := obj0; scm.DeployHook.Target := EmptyString;
   scm.DeployHook.TargetURL := EmptyString; scm.DeployHook.Task := EmptyString |}.

End further_samples.

Definition unreachable : scm.Client :=
  {| scm.rate := rate0; scm.Do := fun _ => inr (scm.Transport "connection refused") |}.

Definition two_paths : scm.Client :=
  {| scm.rate := rate0;
     scm.Do := fun req =>
       if String.eqb (scm.Path req) "first"
       then inl (response 200 quota_headers "{}")
       else inl (response 404 (http.Set_ ∅ "RateLimit-Limit" "10")
                   (js "{'message':'not found'}")) |}.

(** An error body with several members named [message]. *)
Definition messages_body : string :=
  js "{'error':'E42','Message':'first','message':'not found','MESSAGE':null,'code':5}".

(** * Properties *)

Lemma Returns_inj {A} (a b : A) : Returns a = Returns b -> a = b.
Proof. by intros [= ->]. Qed.

(** ** The webhook codec *)

Section webhook_codec.
Context `{scm.Extern}.

(** [UnmarshalJSON] has two outcomes only: it returns the error of the
    first [json.Unmarshal] and leaves [wu] as it was, or it panics at
    [*rawMessage]. *)
Lemma UnmarshalJSON_outcomes (wu : scm.WebhookUnmarshaler) (b : string) :
  scm.UnmarshalJSON wu b = Panics NilPointerDereference
  ∨ ∃ e, scm.UnmarshalJSON wu b = Returns (wu, Some e).
Proof.
  unfold scm.UnmarshalJSON.
  destruct (json.Unmarshal b _) as [m [e|]]; eauto.
Qed.

(** No call of [UnmarshalJSON] stores a hook. *)
Lemma UnmarshalJSON_stores_nothing (wu wu' : scm.WebhookUnmarshaler) (b : string) e :
  scm.UnmarshalJSON wu b = Returns (wu', e) → wu' = wu ∧ is_Some e.
Proof.
  destruct (UnmarshalJSON_outcomes wu b) as [Hp | [e' He]]; rewrite ?Hp, ?He.
  - discriminate.
  - intros [= <- <-]. eauto.
Qed.

(** No call of [UnmarshalJSON] returns the nil error, whatever the
    bytes: decoding never succeeds. *)
Lemma UnmarshalJSON_never_succeeds (wu wu' : scm.WebhookUnmarshaler) (b : string) :
  scm.UnmarshalJSON wu b ≠ Returns (wu', None).
Proof.
  intros Heq. apply UnmarshalJSON_stores_nothing in Heq as [_ [e He]]. discriminate.
Qed.

End webhook_codec.

(** C1 (the code departs from the claim). Decoding what encoding wrote
    does not give the hook back: for a hook of each of the nine variants
    the bytes [MarshalJSON] returns are a JSON object, and
    [UnmarshalJSON] on these bytes panics with a nil pointer dereference
    at [*rawMessage]. *)
Theorem C1_decoding_an_encoded_hook_panics :
  Forall (fun w => decode_encoded wu0 w = Panics NilPointerDereference) samples.
Proof.
  unfold samples. repeat constructor; vm_compute; reflexivity.
Qed.

Section webhook_chain.
Context `{scm.Extern}.

(** C2 (amended). The decoder has no condition of its own for a type
    it does not know: when the payload [raw] decodes into the map of
    strings and its [type] is none of the nine literals (or is
    missing, which reads as the empty string), the chain of
    comparisons takes no branch, stores no hook and returns no
    error. *)
Theorem C2_unknown_type_takes_no_branch (wu : scm.WebhookUnmarshaler) (raw : string)
    (webhookMap : option (gmap string string)) :
  json.Unmarshal raw (Some (None : option (gmap string string)))
    = (Some webhookMap, None) →
  scm.index webhookMap "type" ∉ discriminators →
  scm.UnmarshalJSON_chain wu raw = (wu, None).
Proof.
  intros Hmap Hty. unfold scm.UnmarshalJSON_chain. rewrite Hmap. simpl.
  assert (Hne : ∀ lit, lit ∈ discriminators →
            String.eqb (scm.index webhookMap "type") lit = false).
  { intros lit Hin. apply String.eqb_neq. intros Heq. apply Hty. by rewrite Heq. }
  unfold discriminators in Hne.
  rewrite !Hne by (repeat first [apply list_elem_of_here | apply list_elem_of_further]).
  reflexivity.
Qed.

(** A payload with a member that is not a string, as every encoded
    hook has: the chain returns the type error of the map of strings. *)
Lemma chain_returns_the_map_error (wu : scm.WebhookUnmarshaler) (raw : string)
    (webhookMap : option (option (gmap string string))) (err : json.error) :
  json.Unmarshal raw (Some (None : option (gmap string string))) = (webhookMap, Some err) →
  scm.UnmarshalJSON_chain wu raw = (wu, Some err).
Proof. intros Hmap. unfold scm.UnmarshalJSON_chain. by rewrite Hmap. Qed.

End webhook_chain.

(** Witness of C2: the payload [{"type":"bogus"}]. *)
Lemma C2_unknown_type_takes_no_branch_witness :
  json.Unmarshal (js "{'type':'bogus'}") (Some (None : option (gmap string string)))
    = (Some (Some {["type" := "bogus"]}), None)
  ∧ (scm.index (Some {["type" := "bogus"]}) "type" ∉ discriminators)
  ∧ scm.UnmarshalJSON_chain wu0 (js "{'type':'bogus'}") = (wu0, None).
Proof.
  assert (H1 : json.Unmarshal (js "{'type':'bogus'}")
                 (Some (None : option (gmap string string)))
               = (Some (Some {["type" := "bogus"]}), None))
    by (vm_compute; reflexivity).
  assert (H2 : scm.index (Some {["type" := "bogus"]}) "type" ∉ discriminators)
    by (apply (bool_decide_unpack _); vm_compute; exact I).
  split; [exact H1 | split; [exact H2 |]].
  exact (C2_unknown_type_takes_no_branch (H := json_images) wu0 _ _ H1 H2).
Defined.

(** A payload without [type] takes no branch either. *)
Example chain_without_type :
  scm.UnmarshalJSON_chain wu0 (js "{}") = (wu0, None).
Proof. vm_compute. reflexivity. Qed.

(** C2 (counterexample). On [{"type":"bogus"}] the decoder returns no
    error value at all: it panics at [*rawMessage], exactly as it does on
    a payload of a known type, and the chain it would go on with returns
    the nil error with no hook stored. *)
Lemma C2_bogus_type_is_not_reported :
  ¬ (∃ wu e, scm.UnmarshalJSON wu0 (js "{'type':'bogus'}") = Returns (wu, Some e))
  ∧ scm.UnmarshalJSON wu0 (js "{'type':'bogus'}")
    = scm.UnmarshalJSON wu0 (js "{'type':'pushHook'}")
  ∧ scm.UnmarshalJSON_chain wu0 (js "{'type':'bogus'}") = (wu0, None).
Proof.
  split; [| split].
  - intros (wu & e & Heq). vm_compute in Heq. discriminate.
  - vm_compute. reflexivity.
  - vm_compute. reflexivity.
Qed.

(** ** Encoding *)

Section encode.
Context `{scm.Extern}.

Lemma encode_fields_last (fs : list (string * (json.value + json.error)))
    (k : string) (v : json.value) (ms : list (string * json.value)) :
  json.encode_fields (fs ++ [(k, inl v)]) = inl ms →
  ∃ others, ms = others ++ [(k, v)] ∧ others.*1 = fs.*1.
Proof.
  revert ms. induction fs as [| [k' [v' | e]] fs IH]; intros ms; simpl.
  - intros [= <-]. by exists [].
  - destruct (json.encode_fields (fs ++ [(k, inl v)])) as [ms' | e] eqn:E; [| discriminate].
    intros [= <-]. destruct (IH ms' eq_refl) as (others & -> & Hk).
    exists ((k', v') :: others). split; [done |]. rewrite !fmap_cons. by f_equal.
  - discriminate.
Qed.

(** A map whose greatest key is [type], holding the string [lit]:
    what [json.Marshal] writes for it ends with that member. *)
Lemma encode_type_last (m : scm.hook_map) (front : list (string * json.any))
    (lit : string) (v : json.value) :
  json.sorted_entries m = front ++ [("type", json.box lit)] →
  json.encode m = inl v →
  ∃ others, v = json.JObject (others ++ [("type", json.JString lit)])
            ∧ others.*1 = front.*1.
Proof.
  intros Hsorted. unfold json.encode at 1, json.map_marshaler, json.encode_struct.
  rewrite Hsorted, map_app. simpl.
  destruct (json.encode_fields _) as [ms | e] eqn:E; [| discriminate].
  intros [= <-]. apply encode_fields_last in E as (others & -> & Hk).
  exists others. split; [done |]. rewrite Hk.
  clear. induction front as [| [k a] front IH]; [done |].
  rewrite !fmap_cons. by f_equal.
Qed.

(** The entries of each hook's map in the order [json.Marshal] writes
    them. *)
Lemma PushHook_entries (h : scm.PushHook.t) :
  json.sorted_entries (scm.PushHook.hook h) =
  [("after", json.box (scm.PushHook.After h));
   ("baseRef", json.box (scm.PushHook.BaseRef h));
   ("before", json.box (scm.PushHook.Before h));
   ("commit", json.box (scm.PushHook.Commit_ h));
   ("commits", json.box (scm.PushHook.Commits h));
   ("compare", json.box (scm.PushHook.Compare h));
   ("created", json.box (scm.PushHook.Created h));
   ("deleted", json.box (scm.PushHook.Deleted h));
   ("forced", json.box (scm.PushHook.Forced h));
   ("guid", json.box (scm.PushHook.GUID h));
   ("ref", json.box (scm.PushHook.Ref h));
   ("repo", json.box (scm.PushHook.Repo h));
   ("sender", json.box (scm.PushHook.Sender h))]
  ++ [("type", json.box "pushHook")].
Proof. vm_compute. reflexivity. Qed.

Lemma BranchHook_entries (h : scm.BranchHook.t) :
  json.sorted_entries (scm.BranchHook.hook h) =
  [("action", json.box (scm.BranchHook.Action_ h));
   ("ref", json.box (scm.BranchHook.Ref h));
   ("repo", json.box (scm.BranchHook.Repo h));
   ("sender", json.box (scm.BranchHook.Sender h))]
  ++ [("type", json.box "branchHook")].
Proof. vm_compute. reflexivity. Qed.

Lemma DeployHook_entries (h : scm.DeployHook.t) :
  json.sorted_entries (scm.DeployHook.hook h) =
  [("data", scm.DeployHook.Data h);
   ("desc", json.box (scm.DeployHook.Desc h));
   ("ref", json.box (scm.DeployHook.Ref h));
   ("repo", json.box (scm.DeployHook.Repo h));
   ("sender", json.box (scm.DeployHook.Sender h));
   ("target", json.box (scm.DeployHook.Target h));
   ("targetUrl", json.box (scm.DeployHook.TargetURL h));
   ("task", json.box (scm.DeployHook.Task h))]
  ++ [("type", json.box "deployHook")].
Proof. vm_compute. reflexivity. Qed.

Lemma TagHook_entries (h : scm.TagHook.t) :
  json.sorted_entries (scm.TagHook.hook h) =
  [("action", json.box (scm.TagHook.Action_ h));
   ("ref", json.box (scm.TagHook.Ref h));
   ("repo", json.box (scm.TagHook.Repo h));
   ("sender", json.box (scm.TagHook.Sender h))]
  ++ [("type", json.box "tagHook")].
Proof. vm_compute. reflexivity. Qed.

Lemma IssueHook_entries (h : scm.IssueHook.t) :
  json.sorted_entries (scm.IssueHook.hook h) =
  [("action", json.box (scm.IssueHook.Action_ h));
   ("issue", json.box (scm.IssueHook.Issue_ h));
   ("repo", json.box (scm.IssueHook.Repo h));
   ("sender", json.box (scm.IssueHook.Sender h))]
  ++ [("type", json.box "issueHook")].
Proof. vm_compute. reflexivity. Qed.

Lemma IssueCommentHook_entries (h : scm.IssueCommentHook.t) :
  json.sorted_entries (scm.IssueCommentHook.hook h) =
  [("action", json.box (scm.IssueCommentHook.Action_ h));
   ("comment", json.box (scm.IssueCommentHook.Comment_ h));
   ("issue", json.box (scm.IssueCommentHook.Issue_ h));
   ("repo", json.box (scm.IssueCommentHook.Repo h));
   ("sender", json.box (scm.IssueCommentHook.Sender h))]
  ++ [("type", json.box "issueCommentHook")].
Proof. vm_compute. reflexivity. Qed.

Lemma PullRequestHook_entries (h : scm.PullRequestHook.t) :
  json.sorted_entries (scm.PullRequestHook.hook h) =
  [("action", json.box (scm.PullRequestHook.Action_ h));
   ("changes", json.box (scm.PullRequestHook.Changes h));
   ("guid", json.box (scm.PullRequestHook.GUID h));
   ("label", json.box (scm.PullRequestHook.Label_ h));
   ("pullRequest", json.box (scm.PullRequestHook.PullRequest_ h));
   ("repo", json.box (scm.PullRequestHook.Repo h));
   ("sender", json.box (scm.PullRequestHook.Sender h))]
  ++ [("type", json.box "pullRequestHook")].
Proof. vm_compute. reflexivity. Qed.

Lemma PullRequestCommentHook_entries (h : scm.PullRequestCommentHook.t) :
  json.sorted_entries (scm.PullRequestCommentHook.hook h) =
  [("action", json.box (scm.PullRequestCommentHook.Action_ h));
   ("comment", json.box (scm.PullRequestCommentHook.Comment_ h));
   ("pullRequest", json.box (scm.PullRequestCommentHook.PullRequest_ h));
   ("repo", json.box (scm.PullRequestCommentHook.Repo h));
   ("sender", json.box (scm.PullRequestCommentHook.Sender h))]
  ++ [("type", json.box "pullRequestCommentHook")].
Proof. vm_compute. reflexivity. Qed.

Lemma ReviewCommentHook_entries (h : scm.ReviewCommentHook.t) :
  json.sorted_entries (scm.ReviewCommentHook.hook h) =
  [("action", json.box (scm.ReviewCommentHook.Action_ h));
   ("pullRequest", json.box (scm.ReviewCommentHook.PullRequest_ h));
   ("repo", json.box (scm.ReviewCommentHook.Repo h));
   ("review", json.box (scm.ReviewCommentHook.Review_ h))]
  ++ [("type", json.box "reviewCommentHook")].
Proof. vm_compute. reflexivity. Qed.

Lemma before_type_keys (others : list (string * json.value)) (keys : list string) :
  others.*1 = keys →
  forallb (fun k => String.ltb k "type") keys = true →
  before_type others.
Proof.
  intros <- Hall. unfold before_type.
  induction others as [| [k v] others IH]; simpl in *; constructor.
  - simpl. by apply andb_prop in Hall as [? ?].
  - apply IH. by apply andb_prop in Hall as [? ?].
Qed.

Lemma Marshal_type_last (m : scm.hook_map) (front : list (string * json.any))
    (lit text : string) :
  json.sorted_entries m = front ++ [("type", json.box lit)] →
  forallb (fun k => String.ltb k "type") front.*1 = true →
  json.Marshal m = inl text →
  ∃ others,
    text = json.render (json.JObject (others ++ [("type", json.JString lit)]))
    ∧ before_type others.
Proof.
  intros Hsorted Hkeys. unfold json.Marshal.
  destruct (json.encode m) as [v | e] eqn:E; [| discriminate].
  intros [= <-].
  apply (encode_type_last _ _ _ _ Hsorted) in E as (others & -> & Hk).
  exists others. split; [done |]. by eapply before_type_keys.
Qed.

(** C3 (amended). Whenever a hook is encoded, the text is a JSON
    object with a member [type] whose value is the literal of the
    variant in the table; this member is the last one of the object
    and every other key is smaller than [type]: the key is the first
    one put in the map, and [json.Marshal] writes a map in the order
    of its keys. *)
Theorem C3_type_member_is_written_last (w : scm.Webhook) (text : string) :
  scm.MarshalJSON w = Returns (inl text) →
  ∃ others,
    text = json.render (json.JObject (others ++ [("type", json.JString (discriminator w))]))
    ∧ before_type others.
Proof.
  destruct w as [[h |] | [h |] | [h |] | [h |] | [h |] | [h |] | [h |] | [h |] | [h |]];
    unfold scm.MarshalJSON, through; intros Hm;
    (apply Returns_inj in Hm || discriminate Hm); unfold discriminator.
  - exact (Marshal_type_last _ _ _ _ (PushHook_entries h) eq_refl Hm).
  - exact (Marshal_type_last _ _ _ _ (BranchHook_entries h) eq_refl Hm).
  - exact (Marshal_type_last _ _ _ _ (DeployHook_entries h) eq_refl Hm).
  - exact (Marshal_type_last _ _ _ _ (TagHook_entries h) eq_refl Hm).
  - exact (Marshal_type_last _ _ _ _ (IssueHook_entries h) eq_refl Hm).
  - exact (Marshal_type_last _ _ _ _ (IssueCommentHook_entries h) eq_refl Hm).
  - exact (Marshal_type_last _ _ _ _ (PullRequestHook_entries h) eq_refl Hm).
  - exact (Marshal_type_last _ _ _ _ (PullRequestCommentHook_entries h) eq_refl Hm).
  - exact (Marshal_type_last _ _ _ _ (ReviewCommentHook_entries h) eq_refl Hm).
Qed.

End encode.

(** Witness of C3: the sample branch hook. *)
Lemma C3_type_member_is_written_last_witness :
  scm.MarshalJSON (scm.BranchHookPtr (Some branch0)) = Returns (inl branch0_text)
  ∧ ∃ others,
      branch0_text
      = json.render (json.JObject (others ++ [("type", json.JString "branchHook")]))
      ∧ before_type others.
Proof.
  assert (H1 : scm.MarshalJSON (scm.BranchHookPtr (Some branch0)) = Returns (inl branch0_text))
    by (vm_compute; reflexivity).
  split; [exact H1 |].
  exact (C3_type_member_is_written_last (H := json_images) _ _ H1).
Defined.

(** C3 (counterexample). In the text written for the sample branch hook
    the first member is [action], not [type]. *)
Lemma C3_first_member_is_not_type :
  scm.MarshalJSON (scm.BranchHookPtr (Some branch0)) = Returns (inl branch0_text)
  ∧ (first_key <$> json.parse branch0_text) = Some (Some "action")
  ∧ first_key <$> json.parse branch0_text ≠ Some (Some "type").
Proof.
  split; [| split].
  - vm_compute. reflexivity.
  - vm_compute. reflexivity.
  - vm_compute. discriminate.
Qed.

(** ** The request executor *)

Section executor.
Context {T : Type} `{json.Target T}.
Implicit Types (c : scm.Client) (res : scm.Response) (out : option T).

(** The error [do] returns for a status above 300, as a function of the
    body. *)
Lemma do_error_value c (method path : string) (in_ : json.any) out res :
  scm.Do c (gitlab.request method path in_) = inl res →
  300 < scm.Status res →
  gitlab.do method path in_ out c
  = (Returns (Some (gitlab.parse_headers res),
              Some (gitlab.ErrorPtr
                      match json.parse (scm.Body res) with
                      | None => Some json.zero
                      | Some json.JNull => None
                      | Some v => Some (json.store v (json.zero : gitlab.Error)).1
                      end),
              out),
     observed c res).
Proof.
  intros HDo Hst. unfold gitlab.do, observed. rewrite HDo.
  change (scm.Status (gitlab.parse_headers res)) with (scm.Status res).
  apply Z.ltb_lt in Hst. rewrite Hst.
  change (scm.Body (gitlab.parse_headers res)) with (scm.Body res).
  unfold json.Unmarshal.
  destruct (json.parse (scm.Body res)) as [v |]; [| reflexivity].
  destruct v; simpl; try reflexivity;
    match goal with
    | |- context [json.store_members ?f ?m ?x] => destruct (json.store_members f m x)
    end; reflexivity.
Qed.

(** The same for [do_gl_namespace], which reads the first JSON value of
    the body into the [Error]. *)
Lemma do_gl_namespace_error_value c (method path : string) (in_ : json.any) out res :
  scm.Do c (gitlab.request method path in_) = inl res →
  300 < scm.Status res →
  gitlab.do_gl_namespace method path in_ out c
  = (Returns (Some (gitlab.parse_headers res),
              Some (gitlab.ErrorPtr
                      (Some (json.Decode (scm.Body res) (json.zero : gitlab.Error)).1)),
              out),
     observed c res).
Proof.
  intros HDo Hst. unfold gitlab.do_gl_namespace, observed. rewrite HDo.
  change (scm.Status (gitlab.parse_headers res)) with (scm.Status res).
  apply Z.ltb_lt in Hst. rewrite Hst.
  change (scm.Body (gitlab.parse_headers res)) with (scm.Body res).
  by destruct (json.Decode _ _).
Qed.

(** C4 (amended). For a status strictly above 300 both executors
    return the response together with an error value of type [*Error]
    decoded from the body, and the output is left as it was; for a
    status of 300 or below and no output requested they return the
    response and no error. *)
Theorem C4_error_status_is_above_300 c (method path : string) (in_ : json.any) out res :
  scm.Do c (gitlab.request method path in_) = inl res →
  (300 < scm.Status res →
     gitlab.do method path in_ out c
     = (Returns (Some (gitlab.parse_headers res),
                 Some (gitlab.ErrorPtr
                         match json.parse (scm.Body res) with
                         | None => Some json.zero
                         | Some json.JNull => None
                         | Some v => Some (json.store v (json.zero : gitlab.Error)).1
                         end),
                 out),
        observed c res)
     ∧ gitlab.do_gl_namespace method path in_ out c
       = (Returns (Some (gitlab.parse_headers res),
                   Some (gitlab.ErrorPtr
                           (Some (json.Decode (scm.Body res) (json.zero : gitlab.Error)).1)),
                   out),
          observed c res))
  ∧ (scm.Status res ≤ 300 → out = None →
     gitlab.do method path in_ out c
     = (Returns (Some (gitlab.parse_headers res), None, None), observed c res)
     ∧ gitlab.do_gl_namespace method path in_ out c
       = (Returns (Some (gitlab.parse_headers res), None, None), observed c res)).
Proof.
  intros HDo. split.
  - intros Hst. split.
    + exact (do_error_value _ _ _ _ _ _ HDo Hst).
    + exact (do_gl_namespace_error_value _ _ _ _ _ _ HDo Hst).
  - intros Hst ->. unfold gitlab.do, gitlab.do_gl_namespace, observed. rewrite HDo.
    change (scm.Status (gitlab.parse_headers res)) with (scm.Status res).
    apply Z.ltb_ge in Hst. rewrite Hst. done.
Qed.

End executor.

(** Witness of C4: status 404 with the body [{"message":"not found"}]
    and an output requested, which is left as it was. *)
Lemma C4_error_status_is_above_300_witness :
  scm.Do (serving (response 404 ∅ (js "{'message':'not found'}")))
    (gitlab.request "GET" "projects" json.Nil)
  = inl (response 404 ∅ (js "{'message':'not found'}"))
  ∧ 300 < scm.Status (response 404 ∅ (js "{'message':'not found'}"))
  ∧ gitlab.do "GET" "projects" json.Nil (Some acme)
      (serving (response 404 ∅ (js "{'message':'not found'}")))
    = (Returns (Some (gitlab.parse_headers (response 404 ∅ (js "{'message':'not found'}"))),
                Some (gitlab.ErrorPtr (Some {| gitlab.Message := "not found" |})),
                Some acme),
       observed (serving (response 404 ∅ (js "{'message':'not found'}")))
         (response 404 ∅ (js "{'message':'not found'}"))).
Proof.
  assert (Hst : 300 < scm.Status (response 404 ∅ (js "{'message':'not found'}")))
    by (simpl; lia).
  split; [reflexivity |]. split; [exact Hst |].
  exact (proj1 (proj1 (C4_error_status_is_above_300
    (serving (response 404 ∅ (js "{'message':'not found'}")))
    "GET" "projects" json.Nil (Some acme) _ eq_refl) Hst)).
Defined.

(** C4 (counterexample). A response of status 300 is not routed to the
    error decoder: with the body [{"message":"gone"}] and no output
    requested, [do] and [do_gl_namespace] return the response and the
    nil error. *)
Lemma C4_status_300_is_no_error :
  (gitlab.do "GET" "projects" json.Nil (None : option gitlab.gl_namespace)
     (serving (response 300 ∅ (js "{'message':'gone'}")))).1
  = Returns (Some (gitlab.parse_headers (response 300 ∅ (js "{'message':'gone'}"))),
             None, None)
  ∧ (gitlab.do_gl_namespace "GET" "projects" json.Nil (None : option gitlab.gl_namespace)
       (serving (response 300 ∅ (js "{'message':'gone'}")))).1
    = Returns (Some (gitlab.parse_headers (response 300 ∅ (js "{'message':'gone'}"))),
               None, None)
  ∧ ¬ (∃ r e o c, gitlab.do "GET" "projects" json.Nil (None : option gitlab.gl_namespace)
                    (serving (response 300 ∅ (js "{'message':'gone'}")))
                  = (Returns (r, Some e, o), c)).
Proof.
  split; [| split].
  - vm_compute. reflexivity.
  - vm_compute. reflexivity.
  - intros (r & e & o & c & Heq). vm_compute in Heq. discriminate.
Qed.

(** ** The error decoder *)

Section error_decoder.
Context {T : Type} `{json.Target T}.
Implicit Types (c : scm.Client) (res : scm.Response) (out : option T).

(** A body that is not JSON: the error is a pointer to an [Error] with
    the empty message. *)
Lemma do_error_of_invalid_body c (method path : string) (in_ : json.any) out res :
  scm.Do c (gitlab.request method path in_) = inl res →
  300 < scm.Status res →
  json.parse (scm.Body res) = None →
  gitlab.do method path in_ out c
  = (Returns (Some (gitlab.parse_headers res),
              Some (gitlab.ErrorPtr (Some {| gitlab.Message := EmptyString |})), out),
     observed c res).
Proof.
  intros HDo Hst Hbody. rewrite (do_error_value _ _ _ _ _ _ HDo Hst), Hbody. reflexivity.
Qed.

(** The error of [do] is the nil pointer exactly when the body is the
    JSON text [null]. *)
Lemma do_error_is_nil_iff_null c (method path : string) (in_ : json.any) out res :
  scm.Do c (gitlab.request method path in_) = inl res →
  300 < scm.Status res →
  (∃ r o c', gitlab.do method path in_ out c
             = (Returns (r, Some (gitlab.ErrorPtr None), o), c'))
  ↔ json.parse (scm.Body res) = Some json.JNull.
Proof.
  intros HDo Hst. rewrite (do_error_value _ _ _ _ _ _ HDo Hst). split.
  - intros (r & o & c' & Heq).
    destruct (json.parse (scm.Body res)) as [[] |]; try reflexivity; discriminate.
  - intros ->. eauto.
Qed.

End error_decoder.

(** The example of the specification: status 404 and the body
    [{"message":"not found"}] give an error that reads [not found] and a
    response of status 404. *)
Example do_not_found :
  ∃ res c,
    gitlab.do "GET" "projects/1" json.Nil (None : option gitlab.gl_namespace)
      (serving (response 404 ∅ (js "{'message':'not found'}")))
    = (Returns (Some res,
                Some (gitlab.ErrorPtr (Some {| gitlab.Message := "not found" |})),
                None), c)
    ∧ scm.Status res = 404
    ∧ gitlab.Error_Error (Some {| gitlab.Message := "not found" |}) = Returns "not found".
Proof. do 2 eexists. split; [vm_compute; reflexivity |]. split; reflexivity. Qed.

(** C5 (the code departs from the claim). Status 404 with the body
    [null], which is JSON without a [message]: [do] hands [&err_i] to
    [json.Unmarshal], which sets the pointer [err_i] to nil, and returns
    that nil [*Error] as the error; asking it for its message
    dereferences nil. [do_gl_namespace] hands the pointer itself to the
    decoder and returns an [Error] with the empty message. *)
Theorem C5_null_body_gives_a_nil_error :
  (gitlab.do "GET" "projects/1" json.Nil (None : option gitlab.gl_namespace)
     (serving (response 404 ∅ "null"))).1
  = Returns (Some (gitlab.parse_headers (response 404 ∅ "null")),
             Some (gitlab.ErrorPtr None), None)
  ∧ gitlab.Error_Error None = Panics NilPointerDereference
  ∧ (gitlab.do_gl_namespace "GET" "projects/1" json.Nil (None : option gitlab.gl_namespace)
       (serving (response 404 ∅ "null"))).1
    = Returns (Some (gitlab.parse_headers (response 404 ∅ "null")),
               Some (gitlab.ErrorPtr (Some {| gitlab.Message := EmptyString |})), None).
Proof.
  split; [| split].
  - vm_compute. reflexivity.
  - reflexivity.
  - vm_compute. reflexivity.
Qed.

(** ** The rate limit snapshot *)

(** What [ParseInt] returns with an error: zero for a text that is not
    a number, the nearest bound for a number out of range. *)
Lemma ParseInt10_error (s : string) (bitSize n : Z) (e : strconv.NumError) :
  strconv.ParseInt10 s bitSize = (n, Some e) →
  let bits := if bitSize =? 0 then strconv.IntSize else bitSize in
  (e = strconv.ErrSyntax ∧ n = 0)
  ∨ (e = strconv.ErrRange ∧ (n = 2 ^ (bits - 1) - 1 ∨ n = - 2 ^ (bits - 1))).
Proof.
  unfold strconv.ParseInt10. destruct s as [| c0 rest]; [intros [= <- <-]; auto |].
  destruct (strconv.ParseUint10 _ _) as [un [[] |]]; cbv zeta.
  - intros [= <- <-]. auto.
  - destruct (negb _ && _); [intros [= <- <-]; auto |].
    destruct (_ && _); [intros [= <- <-]; auto | discriminate].
  - destruct (negb _ && _); [intros [= <- <-]; auto |].
    destruct (_ && _); [intros [= <- <-]; auto | discriminate].
Qed.

Lemma Atoi_error (s : string) (n : Z) (e : strconv.NumError) :
  strconv.Atoi s = (n, Some e) →
  (e = strconv.ErrSyntax ∧ n = 0)
  ∨ (e = strconv.ErrRange ∧ (n = 2 ^ 63 - 1 ∨ n = - 2 ^ 63)).
Proof.
  unfold strconv.Atoi. destruct (_ && _).
  - destruct s as [| c0 rest]; [intros [= <- <-]; auto |].
    destruct (_ && _); [intros [= <- <-]; auto |].
    destruct (strconv.Atoi_digits _ _); [discriminate | intros [= <- <-]; auto].
  - intros Herr. apply ParseInt10_error in Herr. exact Herr.
Qed.

(** A header that is missing reads as the empty string, which is not a
    number. *)
Lemma Get_missing (h : http.Header) (key : string) :
  h !! http.CanonicalMIMEHeaderKey key = None → http.Get h key = EmptyString.
Proof. unfold http.Get. by intros ->. Qed.

Section rate_limit.
Context {T : Type} `{json.Target T}.
Implicit Types (c : scm.Client) (res : scm.Response) (out : option T).

(** Both executors store the snapshot in the client before they look at
    the status: whatever they do next, the client they leave has it. *)
Lemma rate_is_observed c (method path : string) (in_ : json.any) out res :
  scm.Do c (gitlab.request method path in_) = inl res →
  (gitlab.do method path in_ out c).2 = observed c res
  ∧ (gitlab.do_gl_namespace method path in_ out c).2 = observed c res.
Proof.
  intros HDo. unfold gitlab.do, gitlab.do_gl_namespace, observed. rewrite HDo.
  destruct (300 <? _).
  - destruct (json.Unmarshal _ _), (json.Decode _ _). done.
  - destruct out as [x |]; [| done].
    destruct (json.Unmarshal_interface _ x). split; [done |].
    destruct (slice _ _ _); [| done].
    by destruct (json.Unmarshal_interface _ x).
Qed.

(** [do] returns the response it got, with the request id and the
    snapshot filled in, for every status. *)
Lemma do_returns_the_response c (method path : string) (in_ : json.any) out res :
  scm.Do c (gitlab.request method path in_) = inl res →
  ∃ err out',
    gitlab.do method path in_ out c
    = (Returns (Some (gitlab.parse_headers res), err, out'), observed c res).
Proof.
  intros HDo. unfold gitlab.do, observed. rewrite HDo.
  destruct (300 <? _).
  - destruct (json.Unmarshal _ _). eauto.
  - destruct out as [x |]; [| eauto].
    destruct (json.Unmarshal_interface _ x). eauto.
Qed.

(** C6 (amended). For every completed exchange, whatever the status,
    [do] returns the response with the request id and the rate limit
    details read from the headers, and both executors leave the client
    with exactly that snapshot. A header that is missing, or whose value
    is not a decimal integer, gives the field zero; a decimal integer
    out of the 64-bit range gives the nearest bound, [2^63 - 1] or
    [- 2^63]. No failure is reported in any of these cases. *)
Theorem C6_snapshot_for_every_status c (method path : string) (in_ : json.any) out res :
  scm.Do c (gitlab.request method path in_) = inl res →
  let h := scm.Header res in
  let snapshot :=
    {| scm.Limit := (strconv.Atoi (http.Get h "RateLimit-Limit")).1;
       scm.Remaining := (strconv.Atoi (http.Get h "RateLimit-Remaining")).1;
       scm.Reset := (strconv.ParseInt10 (http.Get h "RateLimit-Reset") 64).1 |} in
  (∃ err out',
     gitlab.do method path in_ out c
     = (Returns (Some (gitlab.parse_headers res), err, out'), scm.SetRate c snapshot))
  ∧ (gitlab.do_gl_namespace method path in_ out c).2 = scm.SetRate c snapshot
  ∧ scm.ID (gitlab.parse_headers res) = http.Get h "X-Request-Id"
  ∧ scm.Rate_ (gitlab.parse_headers res) = snapshot
  ∧ (∀ key, h !! http.CanonicalMIMEHeaderKey key = None →
       (strconv.Atoi (http.Get h key)).1 = 0
       ∧ (strconv.ParseInt10 (http.Get h key) 64).1 = 0)
  ∧ (∀ key,
       ((strconv.Atoi (http.Get h key)).2 = Some strconv.ErrSyntax →
          (strconv.Atoi (http.Get h key)).1 = 0)
       ∧ ((strconv.ParseInt10 (http.Get h key) 64).2 = Some strconv.ErrSyntax →
          (strconv.ParseInt10 (http.Get h key) 64).1 = 0))
  ∧ (∀ key,
       ((strconv.Atoi (http.Get h key)).2 = Some strconv.ErrRange →
          (strconv.Atoi (http.Get h key)).1 = 2 ^ 63 - 1
          ∨ (strconv.Atoi (http.Get h key)).1 = - 2 ^ 63)
       ∧ ((strconv.ParseInt10 (http.Get h key) 64).2 = Some strconv.ErrRange →
          (strconv.ParseInt10 (http.Get h key) 64).1 = 2 ^ 63 - 1
          ∨ (strconv.ParseInt10 (http.Get h key) 64).1 = - 2 ^ 63)).
Proof.
  intros HDo h snapshot.
  split; [exact (do_returns_the_response _ _ _ _ _ _ HDo) |].
  split; [exact (proj2 (rate_is_observed _ _ _ _ out _ HDo)) |].
  split; [reflexivity |]. split; [reflexivity |].
  clear snapshot HDo.
  split; [intros key Hmissing; rewrite (Get_missing _ _ Hmissing); split; reflexivity |].
  generalize (http.Get h); intros value.
  split.
  - intros key. split.
    + destruct (strconv.Atoi (value key)) as [n e] eqn:E. simpl. intros ->.
      by destruct (Atoi_error _ _ _ E) as [[_ ->] | [? _]].
    + destruct (strconv.ParseInt10 (value key) 64) as [n e] eqn:E. simpl. intros ->.
      by destruct (ParseInt10_error _ _ _ _ E) as [[_ ->] | [? _]].
  - intros key. split.
    + destruct (strconv.Atoi (value key)) as [n e] eqn:E. simpl. intros ->.
      by destruct (Atoi_error _ _ _ E) as [[? _] | [_ ?]].
    + destruct (strconv.ParseInt10 (value key) 64) as [n e] eqn:E. simpl. intros ->.
      by destruct (ParseInt10_error _ _ _ _ E) as [[? _] | [_ ?]].
Qed.

End rate_limit.

(** Witness of C6: status 200 with the headers [RateLimit-Limit: 600],
    [RateLimit-Remaining: 599] and [RateLimit-Reset: 1700000000]. *)
Lemma C6_snapshot_for_every_status_witness :
  scm.Do (serving (response 200 quota_headers "{}"))
    (gitlab.request "GET" "projects" json.Nil)
  = inl (response 200 quota_headers "{}")
  ∧ (gitlab.do_gl_namespace "GET" "projects" json.Nil (Some acme)
       (serving (response 200 quota_headers "{}"))).2
    = scm.SetRate (serving (response 200 quota_headers "{}"))
        {| scm.Limit := 600; scm.Remaining := 599; scm.Reset := 1700000000 |}.
Proof.
  split; [reflexivity |].
  exact (proj1 (proj2 (C6_snapshot_for_every_status
    (serving (response 200 quota_headers "{}"))
    "GET" "projects" json.Nil (Some acme) _ eq_refl))).
Defined.

(** C6 (counterexample). The header [RateLimit-Limit:
    99999999999999999999] cannot be parsed, [Atoi] reports a range
    error, and the limit of the snapshot is not zero: it is
    [2^63 - 1]. *)
Lemma C6_unparseable_header_is_not_zero :
  (strconv.Atoi (http.Get huge_limit_headers "RateLimit-Limit")).2 = Some strconv.ErrRange
  ∧ scm.rate (gitlab.do "GET" "projects" json.Nil (None : option gitlab.gl_namespace)
                (serving (response 200 huge_limit_headers "{}"))).2
    = {| scm.Limit := 9223372036854775807; scm.Remaining := 0; scm.Reset := 0 |}
  ∧ scm.Limit (scm.rate (gitlab.do "GET" "projects" json.Nil
                           (None : option gitlab.gl_namespace)
                           (serving (response 200 huge_limit_headers "{}"))).2) ≠ 0.
Proof.
  split; [| split].
  - vm_compute. reflexivity.
  - vm_compute. reflexivity.
  - vm_compute. discriminate.
Qed.

(** ** Array-unwrap decoding *)

Lemma bytes_app (s1 s2 : string) : bytes (s1 +:+ s2) = bytes s1 ++ bytes s2.
Proof. induction s1 as [| a s1 IH]; simpl; [done | by rewrite IH]. Qed.

Lemma of_bytes_bytes (s : string) : of_bytes (bytes s) = s.
Proof. apply string_of_list_ascii_of_string. Qed.

Lemma length_bytes (s : string) : length (bytes s) = String.length s.
Proof. induction s as [| a s IH]; simpl; [done | by rewrite IH]. Qed.

(** Cutting the first and the last byte off a text in brackets gives
    the text between them. *)
Lemma slice_brackets (t : string) :
  slice ("[" +:+ t +:+ "]") 1 (Z.of_nat (String.length ("[" +:+ t +:+ "]")) - 1)
  = Returns t.
Proof.
  unfold slice.
  assert (Hlen : String.length ("[" +:+ t +:+ "]") = S (S (String.length t))).
  { rewrite <- !length_bytes, !bytes_app, !length_app. simpl. lia. }
  rewrite Hlen.
  replace (Z.of_nat (S (S (String.length t))) - 1) with (Z.of_nat (S (String.length t)))
    by lia.
  replace ((0 <=? 1) && (1 <=? Z.of_nat (S (String.length t)))
           && (Z.of_nat (S (String.length t)) <=? Z.of_nat (S (S (String.length t)))))
    with true by (symmetry; rewrite !andb_true_iff, !Z.leb_le; lia).
  f_equal.
  replace (Z.to_nat (Z.of_nat (S (String.length t)) - 1)) with (String.length t) by lia.
  rewrite !bytes_app. simpl. rewrite drop_0.
  rewrite <- length_bytes, take_app_length. apply of_bytes_bytes.
Qed.

Section array_unwrap.
Context {T : Type} `{json.Target T}.
Implicit Types (c : scm.Client) (res : scm.Response) (x : T).

(** C7 (amended). For a success response whose body is, byte for byte,
    an opening bracket, a text [t] and a closing bracket, with nothing
    before or after, array-unwrap decoding gives what decoding [t] alone
    gives: the object between the brackets when [t] is the text of one
    object. *)
Theorem C7_text_between_brackets_is_decoded c (method path : string) (in_ : json.any)
    x res (t : string) :
  scm.Do c (gitlab.request method path in_) = inl res →
  scm.Status res ≤ 300 →
  scm.Body res = "[" +:+ t +:+ "]" →
  gitlab.do_gl_namespace method path in_ (Some x) c
  = (Returns (Some (gitlab.parse_headers res),
              gitlab.JSON <$> (json.Unmarshal_interface t x).2,
              Some (json.Unmarshal_interface t x).1),
     observed c res).
Proof.
  intros HDo Hst Hbody. unfold gitlab.do_gl_namespace, observed. rewrite HDo.
  change (scm.Status (gitlab.parse_headers res)) with (scm.Status res).
  apply Z.ltb_ge in Hst. rewrite Hst.
  change (scm.Body (gitlab.parse_headers res)) with (scm.Body res).
  rewrite Hbody, slice_brackets.
  by destruct (json.Unmarshal_interface t x).
Qed.

(** A body of fewer than two bytes: the slice expression is out of
    range and [do_gl_namespace] panics, after it has stored the
    snapshot. *)
Lemma short_body_panics c (method path : string) (in_ : json.any) x res :
  scm.Do c (gitlab.request method path in_) = inl res →
  scm.Status res ≤ 300 →
  (String.length (scm.Body res) < 2)%nat →
  gitlab.do_gl_namespace method path in_ (Some x) c
  = (Panics (SliceBoundsOutOfRange 1 (Z.of_nat (String.length (scm.Body res)) - 1)),
     observed c res).
Proof.
  intros HDo Hst Hlen. unfold gitlab.do_gl_namespace, observed. rewrite HDo.
  change (scm.Status (gitlab.parse_headers res)) with (scm.Status res).
  apply Z.ltb_ge in Hst. rewrite Hst.
  change (scm.Body (gitlab.parse_headers res)) with (scm.Body res).
  unfold slice.
  replace (1 <=? Z.of_nat (String.length (scm.Body res)) - 1) with false
    by (symmetry; apply Z.leb_gt; lia).
  reflexivity.
Qed.

End array_unwrap.

(** Witness of C7: status 200 with the body [[{"id":1,"name":"acme"}]];
    the namespace decoded is the one with id 1 and name [acme]. *)
Lemma C7_text_between_brackets_is_decoded_witness :
  scm.Do (serving (response 200 ∅ acme_body)) (gitlab.request "GET" "namespaces" json.Nil)
  = inl (response 200 ∅ acme_body)
  ∧ scm.Status (response 200 ∅ acme_body) ≤ 300
  ∧ scm.Body (response 200 ∅ acme_body) = "[" +:+ js "{'id':1,'name':'acme'}" +:+ "]"
  ∧ gitlab.do_gl_namespace "GET" "namespaces" json.Nil (Some (json.zero : gitlab.gl_namespace))
      (serving (response 200 ∅ acme_body))
    = (Returns (Some (gitlab.parse_headers (response 200 ∅ acme_body)), None, Some acme),
       observed (serving (response 200 ∅ acme_body)) (response 200 ∅ acme_body)).
Proof.
  assert (H1 : scm.Status (response 200 ∅ acme_body) ≤ 300) by (simpl; lia).
  assert (H2 : scm.Body (response 200 ∅ acme_body)
               = "[" +:+ js "{'id':1,'name':'acme'}" +:+ "]") by reflexivity.
  split; [reflexivity |]. split; [exact H1 |]. split; [exact H2 |].
  exact (C7_text_between_brackets_is_decoded (serving (response 200 ∅ acme_body))
           "GET" "namespaces" json.Nil (json.zero : gitlab.gl_namespace)
           (response 200 ∅ acme_body) (js "{'id':1,'name':'acme'}") eq_refl H1 H2).
Defined.

(** C7 (counterexample). The body [[{"id":1,"name":"acme"}]] followed
    by a line feed is a JSON array of one object, yet cutting its first
    and last byte leaves the closing bracket in: decoding fails with a
    syntax error and the target stays zero. *)
Lemma C7_trailing_line_feed_breaks_unwrapping :
  json.parse (acme_body +:+ newline)
  = Some (json.JArray [json.JObject [("id", json.JNumber "1"); ("name", json.JString "acme")]])
  ∧ (gitlab.do_gl_namespace "GET" "namespaces" json.Nil
       (Some (json.zero : gitlab.gl_namespace))
       (serving (response 200 ∅ (acme_body +:+ newline)))).1
    = Returns (Some (gitlab.parse_headers (response 200 ∅ (acme_body +:+ newline))),
               Some (gitlab.JSON json.SyntaxError), Some json.zero).
Proof. split; vm_compute; reflexivity. Qed.

(** C8 (the code departs from the claim). Status 200, an empty body and
    array-unwrap decoding into a namespace: the slice expression
    [buf.String()[1:len(str_buf)-1]] is [s[1:-1]], out of range, and the
    call panics instead of returning an error. A body of one byte does
    the same with [s[1:0]]. *)
Theorem C8_empty_body_panics :
  (gitlab.do_gl_namespace "GET" "namespaces" json.Nil (Some (json.zero : gitlab.gl_namespace))
     (serving (response 200 ∅ EmptyString))).1
  = Panics (SliceBoundsOutOfRange 1 (-1))
  ∧ (gitlab.do_gl_namespace "GET" "namespaces" json.Nil
       (Some (json.zero : gitlab.gl_namespace))
       (serving (response 200 ∅ "["))).1
    = Panics (SliceBoundsOutOfRange 1 0).
Proof. split; vm_compute; reflexivity. Qed.

(** ** The namespace lookup *)

(** C9 (the code departs from the claim). [findNamespaceByName "acme"]
    sends [GET api/v4/namespaces?search=acme], the endpoint answers with
    the array [[{"id":1,"name":"acme"}]], and the body goes through
    [do], not through [do_gl_namespace]: [json.Unmarshal] cannot store
    an array into a [gl_namespace], so the lookup returns that error with
    a zero namespace. [do_gl_namespace] on the same request gives the
    namespace of the array. *)
Theorem C9_lookup_does_not_unwrap_the_array :
  (gitlab.findNamespaceByName "acme" namespaces_endpoint).1
  = Returns (Some json.zero,
             Some (gitlab.JSON (json.UnmarshalTypeError "array" "gitlab.gl_namespace")))
  ∧ (gitlab.do_gl_namespace "GET" "api/v4/namespaces?search=acme" json.Nil
       (Some (json.zero : gitlab.gl_namespace)) namespaces_endpoint).1
    = Returns (Some (gitlab.parse_headers (response 200 ∅ acme_body)), None, Some acme).
Proof. split; vm_compute; reflexivity. Qed.

(** C10 (amended). For every name and every outcome of the HTTP call
    [findNamespaceByName] returns, and whenever it returns an error the
    namespace pointer it returns with it is not nil. The namespace is the
    zero one when the error is a transport failure, a status above 300 or
    a body that is not JSON. The pointer is nil in one case only, where
    no error is returned: a status of 300 or below with the body
    [null]. *)
Theorem C10_pointer_is_set_whenever_an_error_is_returned (name : string) (c : scm.Client) :
  ∃ p err c',
    gitlab.findNamespaceByName name c = (Returns (p, err), c')
    ∧ (is_Some err → is_Some p)
    ∧ (p = None →
       ∃ res, scm.Do c (lookup_request name) = inl res
              ∧ scm.Status res ≤ 300
              ∧ json.parse (scm.Body res) = Some json.JNull)
    ∧ (∀ e, scm.Do c (lookup_request name) = inr e →
         p = Some json.zero ∧ err = Some (gitlab.TransportFailure e))
    ∧ (∀ res, scm.Do c (lookup_request name) = inl res → 300 < scm.Status res →
         p = Some json.zero ∧ ∃ e, err = Some (gitlab.ErrorPtr e))
    ∧ (∀ res, scm.Do c (lookup_request name) = inl res → scm.Status res ≤ 300 →
         json.parse (scm.Body res) = None →
         p = Some json.zero ∧ err = Some (gitlab.JSON json.SyntaxError)).
Proof.
  unfold gitlab.findNamespaceByName, gitlab.do.
  fold (lookup_request name).
  destruct (scm.Do c (lookup_request name)) as [res | e] eqn:HDo.
  - change (scm.Status (gitlab.parse_headers res)) with (scm.Status res).
    change (scm.Body (gitlab.parse_headers res)) with (scm.Body res).
    destruct (300 <? scm.Status res) eqn:Hst.
    + apply Z.ltb_lt in Hst.
      destruct (json.Unmarshal (scm.Body res) _) as [q e'].
      do 3 eexists. split; [reflexivity |]. simpl.
      split; [eauto |]. split; [discriminate |]. split; [discriminate |].
      split; [intros ? [= <-] _; eauto |].
      intros ? [= <-] ?. lia.
    + apply Z.ltb_ge in Hst. unfold json.Unmarshal_interface.
      destruct (json.parse (scm.Body res)) as [v |] eqn:Hbody.
      * destruct v; simpl;
          try match goal with
              | |- context [json.store_members ?f ?m ?x] =>
                  destruct (json.store_members f m x)
              end;
          (do 3 eexists; split; [reflexivity |]; simpl;
           split; [first [by eauto | by intros []] |];
           split; [first [discriminate | intros _; exists res; by rewrite Hbody] |];
           split; [discriminate |];
           split; [intros ? [= <-] ?; lia | intros ? [= <-] _ ?; congruence]).
      * do 3 eexists. split; [reflexivity |]. simpl.
        split; [eauto |]. split; [discriminate |]. split; [discriminate |].
        split; [intros ? [= <-] ?; lia | intros ? [= <-] _ _; done].
  - do 3 eexists. split; [reflexivity |]. simpl.
    split; [eauto |]. split; [discriminate |].
    split; [intros ? [= <-]; done |].
    split; intros ? [=].
Qed.

(** C10 (counterexample). Status 200 with the body [null]: [do] hands
    [json.Unmarshal] the address of the pointer [out], which [null] sets
    to nil, so [findNamespaceByName] returns the nil pointer, with the
    nil error. *)
Lemma C10_null_body_gives_a_nil_pointer :
  (gitlab.findNamespaceByName "acme" (serving (response 200 ∅ "null"))).1
  = Returns (None, None).
Proof. vm_compute. reflexivity. Qed.

(** * Further properties *)

(** ** The webhook decoder *)

Section webhook_decoder.
Context `{scm.Extern}.

(** X1. What [UnmarshalJSON] does depends on the shape of the bytes
    only: bytes that are not JSON give the syntax error, a JSON value
    that is neither an object nor [null] gives a type error that names
    the map of raw messages, and an object or [null] makes the call
    panic; in no case is the receiver changed. *)
Theorem UnmarshalJSON_by_shape (wu : scm.WebhookUnmarshaler) (b : string) :
  scm.UnmarshalJSON wu b
  = match json.parse b with
    | None => Returns (wu, Some json.SyntaxError)
    | Some (json.JObject _) | Some json.JNull => Panics NilPointerDereference
    | Some v =>
        Returns (wu, Some (json.UnmarshalTypeError (json.kind_of v)
                             "map[string]*json.RawMessage"))
    end.
Proof.
  unfold scm.UnmarshalJSON, json.Unmarshal.
  destruct (json.parse b) as [[] |]; reflexivity.
Qed.

Lemma Unmarshal_nil_is_an_error (raw ty : string) : is_Some (json.Unmarshal_nil raw ty).
Proof. unfold json.Unmarshal_nil. destruct (json.parse raw); eauto. Qed.

Lemma branch_stores_nothing (wu : scm.WebhookUnmarshaler) (raw ty : string)
    (h : scm.Webhook) :
  ∃ e, scm.branch wu raw ty h = (wu, Some e).
Proof.
  unfold scm.branch. destruct (Unmarshal_nil_is_an_error raw ty) as [e ->]. eauto.
Qed.

(** X2. The chain of comparisons never stores a hook: whatever the
    payload, the receiver is left as it was; and it returns the nil
    error exactly when the payload decodes into the map of strings
    without a type error and its [type] is none of the nine literals. *)
Theorem chain_never_stores_a_hook (wu : scm.WebhookUnmarshaler) (raw : string) :
  (scm.UnmarshalJSON_chain wu raw).1 = wu
  ∧ ((scm.UnmarshalJSON_chain wu raw).2 = None
     ↔ ∃ webhookMap,
         json.Unmarshal raw (Some (None : option (gmap string string)))
         = (Some webhookMap, None)
         ∧ scm.index webhookMap "type" ∉ discriminators).
Proof.
  unfold scm.UnmarshalJSON_chain.
  assert (Hsome : ∃ m, (json.Unmarshal raw (Some (None : option (gmap string string)))).1
                       = Some m).
  { unfold json.Unmarshal. destruct (json.parse raw); [| by eexists].
    destruct (json.store _ _). by eexists. }
  destruct Hsome as [m Hm].
  destruct (json.Unmarshal raw (Some (None : option (gmap string string))))
    as [webhookMap [err |]]; simpl in Hm; subst webhookMap.
  - split; [done |]. split; [discriminate |]. intros (m' & [=] & _).
  - change (Some m ≫= id) with m.
    repeat match goal with
           | |- context [if String.eqb ?a ?b then _ else _] =>
               let E := fresh "E" in
               destruct (String.eqb a b) eqn:E;
               [ apply String.eqb_eq in E;
                 match goal with
                 | |- context [scm.branch ?w ?r ?t ?h] =>
                     destruct (branch_stores_nothing w r t h) as [e ->]
                 end;
                 split; [done |]; split; [discriminate |];
                 intros (m' & [= <-] & Hnot); exfalso; apply Hnot; rewrite E;
                 unfold discriminators;
                 repeat first [apply list_elem_of_here | apply list_elem_of_further]
               | apply String.eqb_neq in E ]
           end.
    split; [done |]. split; [| done]. intros _. exists m. split; [done |].
    unfold discriminators. rewrite !not_elem_of_cons. repeat split; try done.
    apply not_elem_of_nil.
Qed.

(** X3. A payload of a known type fails too: when it decodes into the
    map of strings and its [type] is one of the nine literals, the chain
    returns the error of an [Unmarshal] into a nil pointer, of the type
    the branch declares, which is [*scm.IssueHook] for the issue, issue
    comment, pull request, pull request comment and review comment
    types. *)
Theorem chain_known_type_is_an_invalid_unmarshal (wu : scm.WebhookUnmarshaler)
    (raw : string) (webhookMap : option (gmap string string)) :
  json.Unmarshal raw (Some (None : option (gmap string string))) = (Some webhookMap, None) →
  scm.index webhookMap "type" ∈ discriminators →
  scm.UnmarshalJSON_chain wu raw
  = (wu, Some (json.InvalidUnmarshalError (branch_type (scm.index webhookMap "type")))).
Proof.
  intros Hmap Hty. unfold scm.UnmarshalJSON_chain. rewrite Hmap.
  change (Some webhookMap ≫= id) with webhookMap.
  assert (Hnil : ∀ ty, json.Unmarshal_nil raw ty = Some (json.InvalidUnmarshalError ty)).
  { intros ty. unfold json.Unmarshal_nil. unfold json.Unmarshal in Hmap.
    destruct (json.parse raw); [done | discriminate]. }
  unfold scm.branch. rewrite !Hnil.
  unfold discriminators in Hty.
  repeat (apply elem_of_cons in Hty as [-> | Hty]; [reflexivity |]).
  by apply not_elem_of_nil in Hty.
Qed.

End webhook_decoder.

(** ** The webhook encoder *)

Lemma sorted_entries_elem {A} (m : gmap string A) (k : string) (a : A) :
  (k, a) ∈ json.sorted_entries m ↔ m !! k = Some a.
Proof.
  unfold json.sorted_entries. rewrite merge_sort_Permutation.
  apply elem_of_map_to_list.
Qed.

Lemma encode_fields_total (fs : list (string * (json.value + json.error))) :
  Forall (fun kr => ∃ v, kr.2 = inl v) fs →
  ∃ ms, json.encode_fields fs = inl ms ∧ ms.*1 = fs.*1.
Proof.
  induction 1 as [| [k r] fs [v Hv] _ (ms & IH & Hk)]; simpl in *.
  - by exists [].
  - subst r. rewrite IH. exists ((k, v) :: ms). split; [done |].
    rewrite !fmap_cons. by f_equal.
Qed.

Lemma encode_fields_error (fs : list (string * (json.value + json.error)))
    (e : json.error) :
  json.encode_fields fs = inr e → ∃ k, (k, inr e) ∈ fs.
Proof.
  induction fs as [| [k [v | e']] fs IH]; simpl; [discriminate | |].
  - destruct (json.encode_fields fs) as [ms | e''] eqn:E; [discriminate |].
    intros [= <-]. destruct (IH eq_refl) as [k' Hin]. exists k'. by right.
  - intros [= <-]. exists k. by left.
Qed.

Lemma encode_fields_elem (fs : list (string * (json.value + json.error)))
    (ms : list (string * json.value)) (k : string) (r : json.value + json.error) :
  json.encode_fields fs = inl ms → (k, r) ∈ fs → ∃ v, r = inl v ∧ (k, v) ∈ ms.
Proof.
  revert ms. induction fs as [| [k' [v' | e']] fs IH]; intros ms; simpl.
  - intros _ Hin. by apply elem_of_nil in Hin.
  - destruct (json.encode_fields fs) as [ms' | e''] eqn:E; [| discriminate].
    intros [= <-] Hin. apply elem_of_cons in Hin as [[= -> ->] | Hin].
    + exists v'. split; [done |]. by left.
    + destruct (IH ms' eq_refl Hin) as (v & -> & Hv). exists v. split; [done |]. by right.
  - discriminate.
Qed.

(** What [json.Marshal] makes of a map whose values all encode. *)
Lemma Marshal_total (m : scm.hook_map) :
  (∀ k a, m !! k = Some a → ∃ v, json.encode a = inl v) →
  ∃ ms, json.Marshal m = inl (json.render (json.JObject ms))
        ∧ ms.*1 = (json.sorted_entries m).*1.
Proof.
  intros Hall. unfold json.Marshal, json.encode at 1, json.map_marshaler, json.encode_struct.
  destruct (encode_fields_total
              (map (fun kv => (kv.1, json.encode kv.2)) (json.sorted_entries m)))
    as (ms & -> & Hk).
  - apply Forall_forall. intros [k r] Hin. apply list_elem_of_fmap in Hin as ([k' a] & [= -> ->] & Hin).
    apply sorted_entries_elem in Hin. exact (Hall _ _ Hin).
  - exists ms. split; [done |]. rewrite Hk.
    generalize (json.sorted_entries m). intros l.
    induction l as [| [k a] l IH]; [done |]. cbn. f_equal. exact IH.
Qed.

Lemma Marshal_error (m : scm.hook_map) (e : json.error) :
  json.Marshal m = inr e → ∃ k a, m !! k = Some a ∧ json.encode a = inr e.
Proof.
  unfold json.Marshal, json.encode at 1, json.map_marshaler, json.encode_struct.
  destruct (json.encode_fields _) as [ms | e'] eqn:E; [discriminate |].
  intros [= <-]. apply encode_fields_error in E as [k Hin].
  apply list_elem_of_fmap in Hin as ([k' a] & [= -> Ha] & Hin).
  apply sorted_entries_elem in Hin. eauto.
Qed.

Lemma Marshal_member (m : scm.hook_map) (k : string) (a : json.any) (text : string) :
  m !! k = Some a →
  json.Marshal m = inl text →
  ∃ v ms, json.encode a = inl v ∧ text = json.render (json.JObject ms) ∧ (k, v) ∈ ms.
Proof.
  intros Hk. unfold json.Marshal, json.encode at 1, json.map_marshaler, json.encode_struct.
  destruct (json.encode_fields _) as [ms | e'] eqn:E; [| discriminate].
  intros [= <-].
  destruct (encode_fields_elem _ _ k (json.encode a) E) as (v & Hv & Hin).
  - apply list_elem_of_fmap. exists (k, a). split; [done |]. by apply sorted_entries_elem.
  - eauto.
Qed.

Section webhook_encoder.
Context `{scm.Extern}.

Lemma MarshalJSON_of_map (w : scm.Webhook) (m : scm.hook_map) :
  hook_map_of w = Returns m → scm.MarshalJSON w = Returns (json.Marshal m).
Proof.
  destruct w as [[h |] | [h |] | [h |] | [h |] | [h |] | [h |] | [h |] | [h |] | [h |]];
    unfold hook_map_of, scm.MarshalJSON, through; intros Hm;
    (apply Returns_inj in Hm || discriminate Hm); subst m; reflexivity.
Qed.

Lemma MarshalJSON_has_a_map (w : scm.Webhook) (r : string + json.error) :
  scm.MarshalJSON w = Returns r → ∃ m, hook_map_of w = Returns m ∧ r = json.Marshal m.
Proof.
  destruct w as [[h |] | [h |] | [h |] | [h |] | [h |] | [h |] | [h |] | [h |] | [h |]];
    unfold hook_map_of, scm.MarshalJSON, through; intros Hm;
    (apply Returns_inj in Hm || discriminate Hm); subst r; eexists; split; reflexivity.
Qed.

Lemma wire_keys_of_map (w : scm.Webhook) (m : scm.hook_map) :
  hook_map_of w = Returns m → (json.sorted_entries m).*1 = wire_keys w.
Proof.
  destruct w as [[h |] | [h |] | [h |] | [h |] | [h |] | [h |] | [h |] | [h |] | [h |]];
    unfold hook_map_of, through; intros Hm;
    (apply Returns_inj in Hm || discriminate Hm); subst m.
  - by rewrite PushHook_entries.
  - by rewrite BranchHook_entries.
  - by rewrite DeployHook_entries.
  - by rewrite TagHook_entries.
  - by rewrite IssueHook_entries.
  - by rewrite IssueCommentHook_entries.
  - by rewrite PullRequestHook_entries.
  - by rewrite PullRequestCommentHook_entries.
  - by rewrite ReviewCommentHook_entries.
Qed.

(** X4. Encoding a hook succeeds whenever every value the hook puts in
    its map can be encoded, and the object written has exactly the keys
    of the variant, in byte order, each once: the wire names are fixed
    ([targetUrl], [pullRequest], [baseRef], ...) and do not depend on
    the values. *)
Theorem MarshalJSON_writes_the_wire_keys (w : scm.Webhook) (m : scm.hook_map) :
  hook_map_of w = Returns m →
  (∀ k a, m !! k = Some a → ∃ v, json.encode a = inl v) →
  ∃ ms, scm.MarshalJSON w = Returns (inl (json.render (json.JObject ms)))
        ∧ ms.*1 = wire_keys w.
Proof.
  intros Hm Hall. rewrite (MarshalJSON_of_map _ _ Hm).
  destruct (Marshal_total m Hall) as (ms & -> & Hk).
  exists ms. split; [done |]. by rewrite Hk, (wire_keys_of_map _ _ Hm).
Qed.

(** X5. When encoding a hook returns an error, it is the error of one
    of the values the hook put in its map: the encoder adds no failure
    of its own. *)
Theorem MarshalJSON_error_comes_from_a_field (w : scm.Webhook) (e : json.error) :
  scm.MarshalJSON w = Returns (inr e) →
  ∃ m k a, hook_map_of w = Returns m ∧ m !! k = Some a ∧ json.encode a = inr e.
Proof.
  intros Hw. apply MarshalJSON_has_a_map in Hw as (m & Hm & He).
  symmetry in He. apply Marshal_error in He as (k & a & Hk & Ha). eauto 6.
Qed.

Lemma repo_of_map (w : scm.Webhook) (m : scm.hook_map) :
  hook_map_of w = Returns m →
  ∃ r, scm.Repository_of w = Returns r ∧ m !! "repo" = Some (json.box r).
Proof.
  destruct w as [[h |] | [h |] | [h |] | [h |] | [h |] | [h |] | [h |] | [h |] | [h |]];
    unfold hook_map_of, scm.Repository_of, through; intros Hm;
    (apply Returns_inj in Hm || discriminate Hm); subst m;
    eexists; (split; [reflexivity |]); vm_compute; reflexivity.
Qed.

(** X6. The repository a hook answers with [Repository()] is the one
    it writes: whenever a hook is encoded, the object has a member
    [repo] whose value is the encoding of what [Repository()]
    returns. *)
Theorem MarshalJSON_writes_the_repository (w : scm.Webhook) (text : string) :
  scm.MarshalJSON w = Returns (inl text) →
  ∃ r v ms,
    scm.Repository_of w = Returns r
    ∧ json.encode r = inl v
    ∧ text = json.render (json.JObject ms)
    ∧ ("repo", v) ∈ ms.
Proof.
  intros Hw. apply MarshalJSON_has_a_map in Hw as (m & Hm & He).
  destruct (repo_of_map _ _ Hm) as (r & Hr & Hk).
  symmetry in He. destruct (Marshal_member _ _ _ _ Hk He) as (v & ms & Hv & -> & Hin).
  exists r, v, ms. done.
Qed.

End webhook_encoder.

(** ** The request executor, further *)

Section executor_further.
Context {T : Type} `{json.Target T}.
Implicit Types (c : scm.Client) (res : scm.Response) (out : option T) (x : T).

(** X7. When the transport fails, both executors return the failure
    with no response, and neither the output nor the rate limit state of
    the client is touched. *)
Theorem transport_failure_touches_nothing c (method path : string) (in_ : json.any)
    out (e : scm.TransportError) :
  scm.Do c (gitlab.request method path in_) = inr e →
  gitlab.do method path in_ out c
  = (Returns (None, Some (gitlab.TransportFailure e), out), c)
  ∧ gitlab.do_gl_namespace method path in_ out c
    = (Returns (None, Some (gitlab.TransportFailure e), out), c).
Proof.
  intros HDo. unfold gitlab.do, gitlab.do_gl_namespace. by rewrite HDo.
Qed.

(** X8. A success response whose body is not JSON, with an output
    requested: [do] returns the response together with the syntax error,
    and the output is left as it was. *)
Theorem do_reports_a_malformed_body c (method path : string) (in_ : json.any) x res :
  scm.Do c (gitlab.request method path in_) = inl res →
  scm.Status res ≤ 300 →
  json.parse (scm.Body res) = None →
  gitlab.do method path in_ (Some x) c
  = (Returns (Some (gitlab.parse_headers res), Some (gitlab.JSON json.SyntaxError), Some x),
     observed c res).
Proof.
  intros HDo Hst Hbody. unfold gitlab.do, observed. rewrite HDo.
  change (scm.Status (gitlab.parse_headers res)) with (scm.Status res).
  apply Z.ltb_ge in Hst. rewrite Hst.
  change (scm.Body (gitlab.parse_headers res)) with (scm.Body res).
  unfold json.Unmarshal_interface. by rewrite Hbody.
Qed.

(** X9. [do] never panics, and [do_gl_namespace] panics in one
    situation only: a response of status 300 or below, an output
    requested, and a body of fewer than two bytes. *)
Theorem executors_panic_on_short_bodies_only c (method path : string) (in_ : json.any) out :
  (∃ r, (gitlab.do method path in_ out c).1 = Returns r)
  ∧ ((∃ p, (gitlab.do_gl_namespace method path in_ out c).1 = Panics p)
     ↔ ∃ res x, scm.Do c (gitlab.request method path in_) = inl res
                ∧ scm.Status res ≤ 300
                ∧ out = Some x
                ∧ (String.length (scm.Body res) < 2)%nat).
Proof.
  split.
  - unfold gitlab.do. destruct (scm.Do c _) as [res | e]; [| by eexists].
    destruct (300 <? _).
    + destruct (json.Unmarshal _ _). by eexists.
    + destruct out as [x |]; [| by eexists].
      destruct (json.Unmarshal_interface _ x). by eexists.
  - unfold gitlab.do_gl_namespace.
    destruct (scm.Do c _) as [res | e] eqn:HDo.
    + change (scm.Status (gitlab.parse_headers res)) with (scm.Status res).
      change (scm.Body (gitlab.parse_headers res)) with (scm.Body res).
      destruct (300 <? scm.Status res) eqn:Hst.
      * apply Z.ltb_lt in Hst. destruct (json.Decode _ _). split.
        -- intros [p [=]].
        -- intros (res' & x & [= <-] & ? & _). lia.
      * apply Z.ltb_ge in Hst. destruct out as [x |].
        -- unfold slice.
           destruct ((0 <=? 1) && (1 <=? Z.of_nat (String.length (scm.Body res)) - 1)
                     && (Z.of_nat (String.length (scm.Body res)) - 1
                         <=? Z.of_nat (String.length (scm.Body res)))) eqn:Hb.
           ++ destruct (json.Unmarshal_interface _ x). split.
              ** intros [p [=]].
              ** intros (res' & x' & [= <-] & _ & _ & Hlen).
                 rewrite !andb_true_iff, !Z.leb_le in Hb. lia.
           ++ split; [| by eexists].
              intros _. exists res, x. repeat split; try done.
              rewrite !andb_false_iff, !Z.leb_gt in Hb. lia.
        -- split; [intros [p [=]] | intros (? & ? & _ & _ & [=] & _)].
    + split; [intros [p [=]] | intros (? & ? & [=] & _)].
Qed.

End executor_further.

(** X10. The rate limit state keeps the last exchange only: after two
    calls in a row, whatever their statuses and outputs, the state of the
    client is the snapshot of the second response. *)
Theorem rate_state_is_the_last_snapshot {T1 T2 : Type} `{json.Target T1} `{json.Target T2}
    (c : scm.Client) (m1 p1 m2 p2 : string) (in1 in2 : json.any)
    (out1 : option T1) (out2 : option T2) (res1 res2 : scm.Response) :
  scm.Do c (gitlab.request m1 p1 in1) = inl res1 →
  scm.Do c (gitlab.request m2 p2 in2) = inl res2 →
  scm.rate (gitlab.do m2 p2 in2 out2 (gitlab.do m1 p1 in1 out1 c).2).2
  = scm.Rate_ (gitlab.parse_headers res2)
  ∧ scm.rate (gitlab.do_gl_namespace m2 p2 in2 out2
                (gitlab.do_gl_namespace m1 p1 in1 out1 c).2).2
    = scm.Rate_ (gitlab.parse_headers res2).
Proof.
  intros H1 H2.
  destruct (rate_is_observed (T := T1) c m1 p1 in1 out1 res1 H1) as [-> ->].
  assert (H2' : scm.Do (observed c res1) (gitlab.request m2 p2 in2) = inl res2) by exact H2.
  destruct (rate_is_observed (T := T2) _ m2 p2 in2 out2 res2 H2') as [-> ->].
  done.
Qed.

(** X11. For every array-shaped body, as the namespace-listing endpoint
    sends, [findNamespaceByName] fails: it returns the type error of an
    array stored into a [gl_namespace], with the zero namespace. *)
Theorem findNamespaceByName_rejects_arrays (name : string) (c : scm.Client)
    (res : scm.Response) (elems : list json.value) :
  scm.Do c (lookup_request name) = inl res →
  scm.Status res ≤ 300 →
  json.parse (scm.Body res) = Some (json.JArray elems) →
  gitlab.findNamespaceByName name c
  = (Returns (Some json.zero,
              Some (gitlab.JSON (json.UnmarshalTypeError "array" "gitlab.gl_namespace"))),
     observed c res).
Proof.
  intros HDo Hst Hbody. unfold gitlab.findNamespaceByName, gitlab.do, observed.
  fold (lookup_request name). rewrite HDo.
  change (scm.Status (gitlab.parse_headers res)) with (scm.Status res).
  apply Z.ltb_ge in Hst. rewrite Hst.
  change (scm.Body (gitlab.parse_headers res)) with (scm.Body res).
  unfold json.Unmarshal_interface. rewrite Hbody. reflexivity.
Qed.

(** ** The two error decoders *)

Lemma scan_from_EndTop (s : list ascii) (v : json.value) (st : json.state) :
  json.scan s (json.EndTop v, []) = Some st → st = (json.EndTop v, []).
Proof.
  induction s as [| a s IH]; simpl; [by intros [= <-] |].
  destruct (json.is_space (code a)); [exact IH | discriminate].
Qed.

Lemma scan_from_EndValue (s : list ascii) (v : json.value) (st : json.state) :
  json.scan s (json.EndValue v, []) = Some st →
  st = (json.EndValue v, []) ∨ st = (json.EndTop v, []).
Proof.
  destruct s as [| a s]; simpl; [intros [= <-]; by left |].
  destruct (json.is_space (code a)); [| discriminate].
  intros Hs. right. by apply scan_from_EndTop in Hs.
Qed.

Lemma step_space_after_value (v v' : json.value) (st : json.state) :
  st = (json.EndValue v, []) ∨ st = (json.EndTop v, []) →
  json.step st (byte_of 32) = Some (json.EndTop v', []) → v = v'.
Proof. intros [-> | ->]; simpl; by intros [= ->]. Qed.

(** A decoder reading a stream finds, in a text that is one JSON value,
    that value. *)
Lemma scan_first_of_valid (s : list ascii) (st st' : json.state) (blank : bool)
    (v : json.value) :
  json.scan s st = Some st' →
  json.step st' (byte_of 32) = Some (json.EndTop v, []) →
  json.scan_first s st blank = inl v.
Proof.
  revert st blank. induction s as [| a s IH]; intros st blank; simpl.
  - intros [= <-] ->. reflexivity.
  - destruct (json.step st a) as [[ss stack] |] eqn:Hstep; [| discriminate].
    intros Hscan Hend.
    destruct ss as [| | | | raw | raw | seen raw | lit | lit | lit | lit | lit | lit
                    | lit | lit | rest lv | v0 | v0];
      try exact (IH _ _ Hscan Hend).
    + destruct v0, stack as [| f stack]; try exact (IH _ _ Hscan Hend);
        f_equal; (eapply step_space_after_value; [| exact Hend]);
        eapply scan_from_EndValue; exact Hscan.
    + destruct stack as [| f stack]; [| exact (IH _ _ Hscan Hend)].
      f_equal. eapply step_space_after_value; [| exact Hend].
      right. eapply scan_from_EndTop. exact Hscan.
Qed.

Lemma Decode_of_valid {T} `{json.Target T} (data : string) (v : json.value) (x : T) :
  json.parse data = Some v → json.Decode data x = json.store v x.
Proof.
  unfold json.parse, json.Decode.
  destruct (json.scan (bytes data) (json.BeginValue, [])) as [st |] eqn:Hscan;
    [| discriminate].
  destruct (json.step st (byte_of 32)) as [[[] []] |] eqn:Hend; try discriminate.
  intros [= ->]. by rewrite (scan_first_of_valid _ _ _ true _ Hscan Hend).
Qed.

(** X12. On the error branch the two executors agree for every body
    that is one JSON value other than [null]: they return the same
    response, the same [*Error] and the same client. *)
Theorem executors_agree_on_json_error_bodies {T} `{json.Target T} (c : scm.Client)
    (method path : string) (in_ : json.any) (out : option T) (res : scm.Response)
    (v : json.value) :
  scm.Do c (gitlab.request method path in_) = inl res →
  300 < scm.Status res →
  json.parse (scm.Body res) = Some v →
  v ≠ json.JNull →
  gitlab.do method path in_ out c = gitlab.do_gl_namespace method path in_ out c.
Proof.
  intros HDo Hst Hbody Hnull.
  rewrite (do_error_value _ _ _ _ _ _ HDo Hst),
    (do_gl_namespace_error_value _ _ _ _ _ _ HDo Hst), Hbody,
    (Decode_of_valid _ _ _ Hbody).
  by destruct v.
Qed.

(** The key of a member selects the field of [Error] exactly when it
    folds to [MESSAGE]. *)
Lemma Error_field_found (k : string) :
  json.foldName k = "MESSAGE" →
  json.find_field gitlab.Error_fields k
  = Some (json.field gitlab.Message (fun a _ => {| gitlab.Message := a |})).
Proof.
  intros Hk. unfold json.find_field, gitlab.Error_fields. cbn [List.find fst snd].
  destruct (String.eqb "message" k); [reflexivity |].
  rewrite Hk. reflexivity.
Qed.

Lemma Error_field_not_found (k : string) :
  json.foldName k ≠ "MESSAGE" → json.find_field gitlab.Error_fields k = None.
Proof.
  intros Hk. unfold json.find_field, gitlab.Error_fields. cbn [List.find fst snd].
  destruct (String.eqb "message" k) eqn:E.
  - apply String.eqb_eq in E. subst k. by destruct Hk.
  - change (json.foldName "message") with "MESSAGE".
    destruct (String.eqb "MESSAGE" (json.foldName k)) eqn:E'; [| reflexivity].
    apply String.eqb_eq in E'. by destruct Hk.
Qed.

Lemma store_members_app {T} (fields : list (string * json.field_store T))
    (ms1 ms2 : list (string * json.value)) (x : T) :
  (json.store_members fields (ms1 ++ ms2) x).1
  = (json.store_members fields ms2 (json.store_members fields ms1 x).1).1.
Proof.
  revert x. induction ms1 as [| [k v] ms1 IH]; intros x; simpl; [done |].
  destruct (json.find_field fields k) as [st |].
  - destruct (st v x) as [x1 e1]. specialize (IH x1).
    destruct (json.store_members fields (ms1 ++ ms2) x1),
      (json.store_members fields ms1 x1). simpl in *. exact IH.
  - specialize (IH x).
    destruct (json.store_members fields (ms1 ++ ms2) x),
      (json.store_members fields ms1 x). simpl in *. exact IH.
Qed.

Lemma store_members_keeps_message (ms : list (string * json.value)) (x : gitlab.Error) :
  Forall keeps_message ms → (json.store_members gitlab.Error_fields ms x).1 = x.
Proof.
  intros Hall. revert x. induction Hall as [| [k v] ms Hkv _ IH]; intros x; simpl; [done |].
  destruct (decide (json.foldName k = "MESSAGE")) as [Hk | Hk].
  - rewrite (Error_field_found _ Hk). unfold json.field. simpl.
    destruct Hkv as [Hkv | Hkv]; [done |]. simpl in Hkv.
    destruct x as [msg].
    destruct v; simpl; try (by destruct (Hkv s));
      specialize (IH {| gitlab.Message := msg |});
      destruct (json.store_members gitlab.Error_fields ms _); simpl in *; exact IH.
  - rewrite (Error_field_not_found _ Hk). specialize (IH x).
    destruct (json.store_members gitlab.Error_fields ms x). simpl in *. exact IH.
Qed.

(** X13. The message of the error [do] returns for a status above 300:
    when the body is an object whose last string member named [message]
    (up to the case of the key) holds [s], the error reads [s], whatever
    the members before it are and whatever members that do not name the
    field, or are not strings, follow it. *)
Theorem error_reads_the_last_message {T} `{json.Target T} (c : scm.Client)
    (method path : string) (in_ : json.any) (out : option T) (res : scm.Response)
    (ms1 ms2 : list (string * json.value)) (k s : string) :
  scm.Do c (gitlab.request method path in_) = inl res →
  300 < scm.Status res →
  json.parse (scm.Body res) = Some (json.JObject (ms1 ++ (k, json.JString s) :: ms2)) →
  json.foldName k = "MESSAGE" →
  Forall keeps_message ms2 →
  gitlab.do method path in_ out c
  = (Returns (Some (gitlab.parse_headers res),
              Some (gitlab.ErrorPtr (Some {| gitlab.Message := s |})), out),
     observed c res)
  ∧ gitlab.Error_Error (Some {| gitlab.Message := s |}) = Returns s.
Proof.
  intros HDo Hst Hbody Hk Hrest. split; [| reflexivity].
  rewrite (do_error_value _ _ _ _ _ _ HDo Hst), Hbody.
  do 4 f_equal. simpl.
  change (json.store_struct "gitlab.Error" gitlab.Error_fields
            (json.JObject (ms1 ++ (k, json.JString s) :: ms2)) json.zero)
    with (json.store_members gitlab.Error_fields (ms1 ++ (k, json.JString s) :: ms2)
            json.zero).
  rewrite store_members_app.
  change ((k, json.JString s) :: ms2) with ([(k, json.JString s)] ++ ms2).
  rewrite store_members_app, store_members_keeps_message by done.
  simpl. rewrite (Error_field_found _ Hk). reflexivity.
Qed.

(** ** Reading the rate limit headers *)

Lemma code_byte_of (n : Z) : 0 ≤ n < 256 → code (byte_of n) = n.
Proof.
  intros Hn. unfold code, byte_of. rewrite Z.mod_small by done.
  rewrite N_ascii_embedding by lia. lia.
Qed.

Lemma code_range (a : ascii) : 0 ≤ code a < 256.
Proof. unfold code. pose proof (N_ascii_bounded a). lia. Qed.

Lemma byte_of_code (a : ascii) : byte_of (code a) = a.
Proof.
  unfold byte_of. rewrite Z.mod_small by apply code_range.
  unfold code. rewrite N2Z.id. apply ascii_N_embedding.
Qed.

Lemma bytes_of_bytes (l : list ascii) : bytes (of_bytes l) = l.
Proof. apply list_ascii_of_string_of_list_ascii. Qed.

Lemma code_digit_byte (d : Z) : 0 ≤ d ≤ 9 → code (digit_byte d) = 48 + d.
Proof. intros Hd. unfold digit_byte. apply code_byte_of. lia. Qed.

Lemma numeral_value_from (ds : list Z) (n : Z) :
  is_digits ds → 0 ≤ n → n ≤ foldl (fun n d => n * 10 + d) n ds.
Proof.
  intros Hds. revert n. induction Hds as [| d ds Hd _ IH]; intros n Hn; simpl; [lia |].
  specialize (IH (n * 10 + d)). lia.
Qed.

Lemma Atoi_digits_numeral (ds : list Z) (n : Z) :
  is_digits ds →
  strconv.Atoi_digits (map digit_byte ds) n = Some (foldl (fun n d => n * 10 + d) n ds).
Proof.
  intros Hds. revert n. induction Hds as [| d ds Hd _ IH]; intros n; simpl; [done |].
  rewrite (code_digit_byte _ Hd).
  replace ((48 + d - 48) mod 256) with d by (rewrite Z.mod_small; lia).
  replace (9 <? d) with false by (symmetry; apply Z.ltb_ge; lia).
  apply IH.
Qed.

Lemma ParseUint_loop_numeral (ds : list Z) (n : Z) :
  is_digits ds → 0 ≤ n →
  foldl (fun n d => n * 10 + d) n ds < 2 ^ 64 →
  strconv.ParseUint_loop (2 ^ 64 - 1) (map digit_byte ds) n
  = (foldl (fun n d => n * 10 + d) n ds, None).
Proof.
  intros Hds. revert n. induction Hds as [| d ds Hd Hds IH]; intros n Hn Hv; simpl; [done |].
  simpl in Hv.
  pose proof (numeral_value_from ds (n * 10 + d) Hds ltac:(lia)) as Hle.
  rewrite (code_digit_byte _ Hd).
  replace (is_digit (48 + d)) with true
    by (symmetry; unfold is_digit, between; rewrite andb_true_iff, !Z.leb_le; lia).
  replace (48 + d - 48) with d by lia.
  change (strconv.maxUint64 / 10 + 1) with 1844674407370955162.
  replace (1844674407370955162 <=? n) with false by (symmetry; apply Z.leb_gt; lia).
  rewrite (Z.mod_small (n * 10 + d)) by lia.
  replace (n * 10 + d <? n * 10) with false by (symmetry; apply Z.ltb_ge; lia).
  replace (2 ^ 64 - 1 <? n * 10 + d) with false by (symmetry; apply Z.ltb_ge; lia).
  simpl. apply IH; lia.
Qed.

Lemma length_numeral (ds : list Z) : String.length (numeral ds) = length ds.
Proof.
  unfold numeral. rewrite <- length_bytes, bytes_of_bytes. apply length_map.
Qed.

(** Every decimal numeral that fits is read as the number it denotes,
    by [Atoi] and by [ParseInt] with 64 bits. *)
Lemma Atoi_numeral (ds : list Z) :
  ds ≠ [] → is_digits ds → numeral_value ds < 2 ^ 63 →
  strconv.Atoi (numeral ds) = (numeral_value ds, None)
  ∧ strconv.ParseInt10 (numeral ds) 64 = (numeral_value ds, None).
Proof.
  intros Hne Hds Hv.
  destruct ds as [| d ds]; [done |].
  assert (Hd : 0 ≤ d ≤ 9) by (by inversion Hds).
  assert (Hsign : (code (digit_byte d) =? 45) = false ∧ (code (digit_byte d) =? 43) = false).
  { rewrite (code_digit_byte _ Hd). split; apply Z.eqb_neq; lia. }
  destruct Hsign as [Hminus Hplus].
  assert (H0 : 0 ≤ numeral_value (d :: ds))
    by (apply (numeral_value_from (d :: ds) 0 Hds); lia).
  assert (Hparse : ∀ bitSize, bitSize = 0 ∨ bitSize = 64 →
            strconv.ParseInt10 (numeral (d :: ds)) bitSize = (numeral_value (d :: ds), None)).
  { intros bitSize Hbits. unfold strconv.ParseInt10.
    change (numeral (d :: ds)) with (String (digit_byte d) (numeral ds)).
    cbv beta iota zeta. rewrite Hminus, Hplus. cbn [orb negb andb].
    unfold strconv.ParseUint10.
    change (String (digit_byte d) (numeral ds)) with (numeral (d :: ds)).
    change (numeral (d :: ds)) with (String (digit_byte d) (numeral ds)) at 1.
    change (String (digit_byte d) (numeral ds)) with (numeral (d :: ds)).
    replace (if bitSize =? 0 then strconv.IntSize else bitSize) with 64
      by (destruct Hbits as [-> | ->]; reflexivity).
    unfold numeral at 1. rewrite bytes_of_bytes.
    rewrite (ParseUint_loop_numeral (d :: ds) 0 Hds) by (fold (numeral_value (d :: ds)); lia).
    fold (numeral_value (d :: ds)).
    change (2 ^ (64 - 1)) with (2 ^ 63).
    replace (2 ^ 63 <=? numeral_value (d :: ds)) with false
      by (symmetry; apply Z.leb_gt; lia).
    reflexivity. }
  split; [| apply Hparse; by right].
  unfold strconv.Atoi. rewrite length_numeral.
  destruct ((0 <? Z.of_nat (length (d :: ds))) && (Z.of_nat (length (d :: ds)) <? 19));
    [| apply Hparse; by left].
  change (numeral (d :: ds)) with (String (digit_byte d) (numeral ds)).
  cbv beta iota zeta. rewrite Hminus, Hplus. cbn [orb andb].
  change (String (digit_byte d) (numeral ds)) with (numeral (d :: ds)).
  unfold numeral. rewrite bytes_of_bytes, (Atoi_digits_numeral _ 0 Hds).
  reflexivity.
Qed.

(** X14. A rate limit header whose value is a decimal numeral that fits
    in 63 bits is read exactly: each of the three fields of the snapshot
    is the number its header denotes, leading zeros included. *)
Theorem rate_fields_are_the_numbers_sent (res : scm.Response) (limit remaining reset : list Z) :
  http.Get (scm.Header res) "RateLimit-Limit" = numeral limit →
  http.Get (scm.Header res) "RateLimit-Remaining" = numeral remaining →
  http.Get (scm.Header res) "RateLimit-Reset" = numeral reset →
  (limit ≠ [] ∧ is_digits limit ∧ numeral_value limit < 2 ^ 63) →
  (remaining ≠ [] ∧ is_digits remaining ∧ numeral_value remaining < 2 ^ 63) →
  (reset ≠ [] ∧ is_digits reset ∧ numeral_value reset < 2 ^ 63) →
  scm.Rate_ (gitlab.parse_headers res)
  = {| scm.Limit := numeral_value limit;
       scm.Remaining := numeral_value remaining;
       scm.Reset := numeral_value reset |}.
Proof.
  intros Hl Hr Ht (? & ? & ?) (? & ? & ?) (? & ? & ?).
  unfold gitlab.parse_headers. cbn [scm.Rate_]. rewrite Hl, Hr, Ht.
  rewrite (proj1 (Atoi_numeral limit ltac:(done) ltac:(done) ltac:(done))).
  rewrite (proj1 (Atoi_numeral remaining ltac:(done) ltac:(done) ltac:(done))).
  rewrite (proj2 (Atoi_numeral reset ltac:(done) ltac:(done) ltac:(done))).
  reflexivity.
Qed.

(** ** The query of the namespace lookup *)

Lemma upper_hex_digit_code (n : Z) :
  0 ≤ n < 16 →
  code (upper_hex_digit n) = if n <? 10 then 48 + n else 55 + n.
Proof.
  intros Hn. unfold upper_hex_digit. destruct (n <? 10) eqn:E.
  - apply code_byte_of. lia.
  - apply Z.ltb_ge in E. rewrite code_byte_of by lia. lia.
Qed.

Lemma upper_hex_digit_safe (n : Z) : 0 ≤ n < 16 → query_safe (upper_hex_digit n) = true.
Proof.
  intros Hn. unfold query_safe. rewrite (upper_hex_digit_code _ Hn).
  destruct (n <? 10) eqn:E.
  - apply Z.ltb_lt in E.
    replace (is_digit (48 + n)) with true
      by (symmetry; unfold is_digit, between; rewrite andb_true_iff, !Z.leb_le; lia).
    by rewrite orb_true_r.
  - apply Z.ltb_ge in E.
    replace (is_alpha (55 + n)) with true; [done |].
    symmetry. unfold is_alpha, is_upper, between.
    rewrite orb_true_iff, !andb_true_iff, !Z.leb_le. lia.
Qed.

(** The path of the lookup is the fixed prefix followed by the escaped
    name. *)
Lemma lookup_path (name : string) :
  scm.Path (lookup_request name) = "api/v4/namespaces?search=" +:+ url.QueryEscape name.
Proof.
  unfold lookup_request, gitlab.request. cbn [scm.Path].
  unfold url.Encode, url.Set_, json.sorted_entries, url.Values.
  rewrite insert_empty, map_to_list_singleton. reflexivity.
Qed.

(** X15. The lookup sends a [GET] without a body to the path
    [api/v4/namespaces?search=] followed by the escaped name, and the
    escaped name is made of letters, digits and the bytes [-_.~+%] only:
    whatever the name, it cannot close the [search] parameter or add
    another one. *)
Theorem lookup_query_is_one_parameter (name : string) :
  scm.Method (lookup_request name) = "GET"
  ∧ scm.ReqBody (lookup_request name) = None
  ∧ scm.Path (lookup_request name) = "api/v4/namespaces?search=" +:+ url.QueryEscape name
  ∧ forallb query_safe (bytes (url.QueryEscape name)) = true.
Proof.
  split; [reflexivity |]. split; [reflexivity |]. split; [apply lookup_path |].
  unfold url.QueryEscape. rewrite bytes_of_bytes.
  induction (bytes name) as [| a l IH]; [reflexivity |].
  cbn [flat_map]. rewrite forallb_app, IH, andb_true_r.
  pose proof (code_range a) as Ha.
  destruct (code a =? 32) eqn:Hsp; [reflexivity |].
  destruct (url.shouldEscape (code a)) eqn:Hesc.
  - cbn [forallb]. rewrite !upper_hex_digit_safe; [reflexivity | |].
    + apply Z.mod_pos_bound. lia.
    + split; [apply Z.div_pos; lia | apply Z.div_lt_upper_bound; lia].
  - cbn [forallb]. rewrite andb_true_r.
    unfold url.shouldEscape in Hesc. apply negb_false_iff in Hesc.
    unfold query_safe. rewrite !orb_true_iff in *. tauto.
Qed.

Lemma code_inj (a b : ascii) : code a = code b → a = b.
Proof. intros Heq. by rewrite <- (byte_of_code a), <- (byte_of_code b), Heq. Qed.

Lemma upper_hex_digit_inj (m n : Z) :
  0 ≤ m < 16 → 0 ≤ n < 16 → upper_hex_digit m = upper_hex_digit n → m = n.
Proof.
  intros Hm Hn Heq. apply (f_equal code) in Heq.
  rewrite !upper_hex_digit_code in Heq by done.
  destruct (m <? 10) eqn:Em, (n <? 10) eqn:En;
    rewrite ?Z.ltb_lt, ?Z.ltb_ge in Em, En; lia.
Qed.

(** What the escape of one byte starts with tells its kind apart. *)
Lemma unreserved_is_no_escape (a : ascii) :
  url.shouldEscape (code a) = false → code a ≠ 43 ∧ code a ≠ 37 ∧ code a ≠ 32.
Proof.
  unfold url.shouldEscape, is_alpha, is_lower, is_upper, is_digit, between.
  intros Hs. apply negb_false_iff in Hs.
  rewrite !orb_true_iff, !andb_true_iff, !Z.leb_le, !Z.eqb_eq in Hs. lia.
Qed.

Lemma escape_bytes_inj (l1 l2 : list ascii) :
  bytes (url.QueryEscape (of_bytes l1)) = bytes (url.QueryEscape (of_bytes l2)) → l1 = l2.
Proof.
  unfold url.QueryEscape. rewrite !bytes_of_bytes.
  revert l2. induction l1 as [| a l1 IH]; intros [| b l2]; cbn [flat_map].
  - done.
  - destruct (code b =? 32); [discriminate |]. destruct (url.shouldEscape (code b)); discriminate.
  - destruct (code a =? 32); [discriminate |]. destruct (url.shouldEscape (code a)); discriminate.
  - pose proof (code_range a) as Ha. pose proof (code_range b) as Hb.
    destruct (code a =? 32) eqn:Ea, (code b =? 32) eqn:Eb;
      rewrite ?Z.eqb_eq, ?Z.eqb_neq in Ea, Eb.
    + intros [= Heq]. f_equal; [apply code_inj; congruence | by apply IH].
    + destruct (url.shouldEscape (code b)) eqn:Sb.
      * discriminate.
      * intros [= Heq _]. apply unreserved_is_no_escape in Sb.
        apply (f_equal code) in Heq. rewrite code_byte_of in Heq by lia. lia.
    + destruct (url.shouldEscape (code a)) eqn:Sa.
      * discriminate.
      * intros [= Heq _]. apply unreserved_is_no_escape in Sa.
        apply (f_equal code) in Heq. rewrite code_byte_of in Heq by lia. lia.
    + destruct (url.shouldEscape (code a)) eqn:Sa, (url.shouldEscape (code b)) eqn:Sb.
      * intros [= Hhi Hlo Heq].
        apply upper_hex_digit_inj in Hhi;
          [| split; [apply Z.div_pos; lia | apply Z.div_lt_upper_bound; lia] ..].
        apply upper_hex_digit_inj in Hlo; [| apply Z.mod_pos_bound; lia ..].
        f_equal; [| by apply IH]. apply code_inj.
        rewrite (Z.div_mod (code a) 16), (Z.div_mod (code b) 16) by lia. congruence.
      * intros [= Heq _]. apply unreserved_is_no_escape in Sb.
        apply (f_equal code) in Heq. rewrite code_byte_of in Heq by lia. lia.
      * intros [= Heq _]. apply unreserved_is_no_escape in Sa.
        apply (f_equal code) in Heq. rewrite code_byte_of in Heq by lia. lia.
      * intros [= -> Heq]. f_equal. by apply IH.
Qed.

(** X16. Two names are looked up at the same path only when they are
    the same name: the escaping of the query loses nothing. *)
Theorem lookup_paths_tell_names_apart (name1 name2 : string) :
  scm.Path (lookup_request name1) = scm.Path (lookup_request name2) → name1 = name2.
Proof.
  rewrite !lookup_path. intros Heq.
  apply (f_equal bytes) in Heq. rewrite !bytes_app in Heq.
  apply app_inv_head in Heq.
  rewrite <- (of_bytes_bytes name1), <- (of_bytes_bytes name2) in Heq.
  apply escape_bytes_inj in Heq.
  by rewrite <- (of_bytes_bytes name1), <- (of_bytes_bytes name2), Heq.
Qed.

(** ** Label events *)

Section label_events.
Context `{gitlab.Converters}.

Lemma convertLabelEvent_returns (from : option gitlab.labelEvent.t)
    (e : gitlab.ListedIssueEvent.t) :
  gitlab.convertLabelEvent from = Returns e → converted from e.
Proof.
  unfold gitlab.convertLabelEvent, converted. destruct from as [f |]; [| discriminate].
  destruct (gitlab.convertUser _) as [actor |] eqn:Hu; [| discriminate].
  destruct (gitlab.convertLabel _) as [lab |] eqn:Hl; [| discriminate].
  destruct (gitlab.labelEvent.CreatedAt f) as [created |] eqn:Hc; [| discriminate].
  intros [= <-]. exists f. repeat split; done.
Qed.

Lemma convertLabelEvent_panics (from : option gitlab.labelEvent.t) :
  (∃ p, gitlab.convertLabelEvent from = Panics p) ↔ unconvertible from.
Proof.
  unfold gitlab.convertLabelEvent, unconvertible.
  destruct from as [f |]; [| split; [done | intros _; by eexists]].
  destruct (gitlab.convertUser _) as [actor |];
    [| split; [intros _; by left | intros _; by eexists]].
  destruct (gitlab.convertLabel _) as [lab |];
    [| split; [intros _; right; by left | intros _; by eexists]].
  destruct (gitlab.labelEvent.CreatedAt f) as [created |];
    [| split; [intros _; right; by right | intros _; by eexists]].
  split; [intros [p [=]] | intros [[=] | [[=] | [=]]]].
Qed.

Lemma convertLabelEvents_from_returns (src : list (option gitlab.labelEvent.t))
    (acc answer : option (list gitlab.ListedIssueEvent.t)) :
  gitlab.convertLabelEvents_from src acc = Returns answer →
  ∃ l, Forall2 converted src l
       ∧ ((l = [] ∧ answer = acc) ∨ (l ≠ [] ∧ answer = Some (default [] acc ++ l))).
Proof.
  revert acc. induction src as [| from rest IH]; intros acc; simpl.
  - intros [= <-]. exists []. split; [constructor | by left].
  - destruct (gitlab.convertLabelEvent from) as [e | p] eqn:He; [| discriminate].
    intros Hrest. apply IH in Hrest as (l & Hl & Hanswer).
    exists (e :: l). split; [constructor; [by apply convertLabelEvent_returns | done] |].
    right. split; [done |].
    destruct Hanswer as [[-> ->] | [_ ->]]; simpl; [done |].
    by rewrite <- app_assoc.
Qed.

(** X17. When [convertLabelEvents] returns, the answer is the nil slice
    for an empty source and otherwise a slice with one event per source
    event, in the same order: each has the creation time, the converted
    user and the converted label of its source, and reads [unlabeled]
    when the action of the source is [remove], [labeled] for every other
    action. *)
Theorem convertLabelEvents_keeps_the_events (src : list (option gitlab.labelEvent.t))
    (answer : option (list gitlab.ListedIssueEvent.t)) :
  gitlab.convertLabelEvents src = Returns answer →
  (src = [] ∧ answer = None)
  ∨ (∃ l, answer = Some l ∧ l ≠ [] ∧ Forall2 converted src l).
Proof.
  intros Hret. apply convertLabelEvents_from_returns in Hret as (l & Hl & Hanswer).
  destruct Hanswer as [[-> ->] | [Hne ->]].
  - left. split; [| done]. by apply Forall2_nil_inv_r in Hl.
  - right. exists l. done.
Qed.

Lemma convertLabelEvents_from_panics (src : list (option gitlab.labelEvent.t))
    (acc : option (list gitlab.ListedIssueEvent.t)) :
  (∃ p, gitlab.convertLabelEvents_from src acc = Panics p) ↔ Exists unconvertible src.
Proof.
  revert acc. induction src as [| from rest IH]; intros acc; simpl.
  - split; [intros [p [=]] | intros Hex; inversion Hex].
  - rewrite Exists_cons, <- convertLabelEvent_panics.
    destruct (gitlab.convertLabelEvent from) as [e | p] eqn:He.
    + rewrite IH. split; [by right | intros [[p [=]] | Hex]; done].
    + split; [intros _; left; by eexists | intros _; by eexists].
Qed.

(** X18. [convertLabelEvents] panics exactly when the source holds an
    element that cannot be converted: a nil pointer, an event whose
    [CreatedAt] is nil, or one whose user or label converts to nil. With
    no such element it returns. *)
Theorem convertLabelEvents_panics_on_nil_only (src : list (option gitlab.labelEvent.t)) :
  ((∃ p, gitlab.convertLabelEvents src = Panics p) ↔ Exists unconvertible src)
  ∧ ((∃ answer, gitlab.convertLabelEvents src = Returns answer)
     ↔ ¬ Exists unconvertible src).
Proof.
  pose proof (convertLabelEvents_from_panics src None) as Hp.
  split; [exact Hp |].
  rewrite <- Hp. unfold gitlab.convertLabelEvents.
  destruct (gitlab.convertLabelEvents_from src None) as [a | p].
  - split; [intros _ [p [=]] | intros _; by eexists].
  - split; [intros [a [=]] | intros Hn; destruct Hn; by eexists].
Qed.

End label_events.

(** ** Witnesses of the further properties *)

(** Witness of X3: the payload [{"type":"pullRequestHook"}] fails with
    an error that names [*scm.IssueHook]. *)
Lemma chain_known_type_is_an_invalid_unmarshal_witness :
  scm.UnmarshalJSON_chain wu0 (js "{'type':'pullRequestHook'}")
  = (wu0, Some (json.InvalidUnmarshalError "*scm.IssueHook")).
Proof.
  assert (H1 : json.Unmarshal (js "{'type':'pullRequestHook'}")
                 (Some (None : option (gmap string string)))
               = (Some (Some {["type" := "pullRequestHook"]}), None))
    by (vm_compute; reflexivity).
  assert (H2 : scm.index (Some {["type" := "pullRequestHook"]}) "type" ∈ discriminators)
    by (apply (bool_decide_unpack _); vm_compute; exact I).
  exact (chain_known_type_is_an_invalid_unmarshal (H := json_images) wu0 _ _ H1 H2).
Defined.

(** Witness of X4: the sample deploy hook; its target URL is written
    under [targetUrl]. *)
Lemma MarshalJSON_writes_the_wire_keys_witness :
  ∃ ms, scm.MarshalJSON (scm.DeployHookPtr (Some deploy0))
        = Returns (inl (json.render (json.JObject ms)))
        ∧ ms.*1 = ["data"; "desc"; "ref"; "repo"; "sender"; "target"; "targetUrl";
                   "task"; "type"].
Proof.
  refine (MarshalJSON_writes_the_wire_keys (H := json_images)
            (scm.DeployHookPtr (Some deploy0)) (scm.DeployHook.hook deploy0) eq_refl _).
  intros k a Hk. apply sorted_entries_elem in Hk.
  rewrite (DeployHook_entries (H := json_images) deploy0) in Hk. cbn [app] in Hk.
  repeat (apply elem_of_cons in Hk as [[= -> ->] | Hk]; [by eexists |]).
  by apply elem_of_nil in Hk.
Defined.

(** Witness of X5: a deploy hook whose [Data] is a channel. *)
Lemma MarshalJSON_error_comes_from_a_field_witness :
  scm.MarshalJSON (scm.DeployHookPtr (Some deploy_chan))
  = Returns (inr (json.MarshalerError "chan int"))
  ∧ ∃ m k a, hook_map_of (scm.DeployHookPtr (Some deploy_chan)) = Returns m
             ∧ m !! k = Some a
             ∧ json.encode a = inr (json.MarshalerError "chan int").
Proof.
  assert (H1 : scm.MarshalJSON (scm.DeployHookPtr (Some deploy_chan))
               = Returns (inr (json.MarshalerError "chan int")))
    by (vm_compute; reflexivity).
  split; [exact H1 |].
  exact (MarshalJSON_error_comes_from_a_field (H := json_images) _ _ H1).
Defined.

(** Witness of X6: the sample branch hook. *)
Lemma MarshalJSON_writes_the_repository_witness :
  scm.MarshalJSON (scm.BranchHookPtr (Some branch0)) = Returns (inl branch0_text)
  ∧ ∃ r v ms,
      scm.Repository_of (scm.BranchHookPtr (Some branch0)) = Returns r
      ∧ json.encode r = inl v
      ∧ branch0_text = json.render (json.JObject ms)
      ∧ ("repo", v) ∈ ms.
Proof.
  assert (H1 : scm.MarshalJSON (scm.BranchHookPtr (Some branch0))
               = Returns (inl branch0_text))
    by (vm_compute; reflexivity).
  split; [exact H1 |].
  exact (MarshalJSON_writes_the_repository (H := json_images) _ _ H1).
Defined.

(** Witness of X7: a transport that refuses the connection. *)
Lemma transport_failure_touches_nothing_witness :
  gitlab.do "GET" "projects" json.Nil (Some acme) unreachable
  = (Returns (None, Some (gitlab.TransportFailure (scm.Transport "connection refused")),
              Some acme), unreachable).
Proof.
  exact (proj1 (transport_failure_touches_nothing unreachable "GET" "projects" json.Nil
                  (Some acme) (scm.Transport "connection refused") eq_refl)).
Defined.

(** Witness of X8: status 200 with a page of HTML as body. *)
Lemma do_reports_a_malformed_body_witness :
  gitlab.do "GET" "projects" json.Nil (Some acme) (serving (response 200 ∅ "<html>"))
  = (Returns (Some (gitlab.parse_headers (response 200 ∅ "<html>")),
              Some (gitlab.JSON json.SyntaxError), Some acme),
     observed (serving (response 200 ∅ "<html>")) (response 200 ∅ "<html>")).
Proof.
  assert (H1 : scm.Status (response 200 ∅ "<html>") ≤ 300) by (simpl; lia).
  assert (H2 : json.parse (scm.Body (response 200 ∅ "<html>")) = None)
    by (vm_compute; reflexivity).
  exact (do_reports_a_malformed_body (serving (response 200 ∅ "<html>"))
           "GET" "projects" json.Nil acme _ eq_refl H1 H2).
Defined.

(** Witness of X10: a call that sees the quota headers, then one that
    sees a limit of 10; the state is the second snapshot. *)
Lemma rate_state_is_the_last_snapshot_witness :
  scm.rate (gitlab.do "GET" "second" json.Nil (None : option gitlab.gl_namespace)
              (gitlab.do "GET" "first" json.Nil (Some acme) two_paths).2).2
  = {| scm.Limit := 10; scm.Remaining := 0; scm.Reset := 0 |}.
Proof.
  exact (proj1 (rate_state_is_the_last_snapshot two_paths "GET" "first" "GET" "second"
                  json.Nil json.Nil (Some acme) (None : option gitlab.gl_namespace)
                  _ _ eq_refl eq_refl)).
Defined.

(** Witness of X11: the search of [acme] at the sample endpoint. *)
Lemma findNamespaceByName_rejects_arrays_witness :
  gitlab.findNamespaceByName "acme" namespaces_endpoint
  = (Returns (Some json.zero,
              Some (gitlab.JSON (json.UnmarshalTypeError "array" "gitlab.gl_namespace"))),
     observed namespaces_endpoint (response 200 ∅ acme_body)).
Proof.
  assert (H1 : scm.Status (response 200 ∅ acme_body) ≤ 300) by (simpl; lia).
  assert (H2 : json.parse (scm.Body (response 200 ∅ acme_body))
               = Some (json.JArray [json.JObject [("id", json.JNumber "1");
                                                  ("name", json.JString "acme")]]))
    by (vm_compute; reflexivity).
  exact (findNamespaceByName_rejects_arrays "acme" namespaces_endpoint _ _ eq_refl H1 H2).
Defined.

(** Witness of X12: status 404 with the body [{"message":"not found"}]. *)
Lemma executors_agree_on_json_error_bodies_witness :
  gitlab.do "GET" "projects" json.Nil (Some acme)
    (serving (response 404 ∅ (js "{'message':'not found'}")))
  = gitlab.do_gl_namespace "GET" "projects" json.Nil (Some acme)
      (serving (response 404 ∅ (js "{'message':'not found'}"))).
Proof.
  assert (H1 : 300 < scm.Status (response 404 ∅ (js "{'message':'not found'}")))
    by (simpl; lia).
  assert (H2 : json.parse (scm.Body (response 404 ∅ (js "{'message':'not found'}")))
               = Some (json.JObject [("message", json.JString "not found")]))
    by (vm_compute; reflexivity).
  assert (H3 : json.JObject [("message", json.JString "not found")] ≠ json.JNull)
    by discriminate.
  exact (executors_agree_on_json_error_bodies
           (serving (response 404 ∅ (js "{'message':'not found'}")))
           "GET" "projects" json.Nil (Some acme) _ _ eq_refl H1 H2 H3).
Defined.

(** Witness of X13: a body with three members named [message] up to
    case, the last string among them being [not found]. *)
Lemma error_reads_the_last_message_witness :
  gitlab.do "GET" "projects" json.Nil (None : option gitlab.gl_namespace)
    (serving (response 404 ∅ messages_body))
  = (Returns (Some (gitlab.parse_headers (response 404 ∅ messages_body)),
              Some (gitlab.ErrorPtr (Some {| gitlab.Message := "not found" |})), None),
     observed (serving (response 404 ∅ messages_body)) (response 404 ∅ messages_body))
  ∧ gitlab.Error_Error (Some {| gitlab.Message := "not found" |}) = Returns "not found".
Proof.
  assert (H1 : 300 < scm.Status (response 404 ∅ messages_body)) by (simpl; lia).
  assert (H2 : json.parse (scm.Body (response 404 ∅ messages_body))
               = Some (json.JObject
                         ([("error", json.JString "E42"); ("Message", json.JString "first")]
                          ++ ("message", json.JString "not found")
                             :: [("MESSAGE", json.JNull); ("code", json.JNumber "5")])))
    by (vm_compute; reflexivity).
  assert (H3 : json.foldName "message" = "MESSAGE") by (vm_compute; reflexivity).
  assert (H4 : Forall keeps_message [("MESSAGE", json.JNull); ("code", json.JNumber "5")]).
  { apply Forall_cons; split; [right; intros s; discriminate |].
    apply Forall_cons; split; [right; intros s; discriminate |].
    apply Forall_nil_2. }
  exact (error_reads_the_last_message (serving (response 404 ∅ messages_body))
           "GET" "projects" json.Nil (None : option gitlab.gl_namespace) _ _ _ _ _
           eq_refl H1 H2 H3 H4).
Defined.

(** Witness of X14: the headers [RateLimit-Limit: 600],
    [RateLimit-Remaining: 599] and [RateLimit-Reset: 1700000000]. *)
Lemma rate_fields_are_the_numbers_sent_witness :
  scm.Rate_ (gitlab.parse_headers (response 200 quota_headers "{}"))
  = {| scm.Limit := 600; scm.Remaining := 599; scm.Reset := 1700000000 |}.
Proof.
  refine (rate_fields_are_the_numbers_sent (response 200 quota_headers "{}")
            [6; 0; 0] [5; 9; 9] [1; 7; 0; 0; 0; 0; 0; 0; 0; 0] _ _ _ _ _ _).
  - vm_compute. reflexivity.
  - vm_compute. reflexivity.
  - vm_compute. reflexivity.
  - split; [discriminate |]. split; [| vm_compute; reflexivity].
    repeat constructor; lia.
  - split; [discriminate |]. split; [| vm_compute; reflexivity].
    repeat constructor; lia.
  - split; [discriminate |]. split; [| vm_compute; reflexivity].
    repeat constructor; lia.
Defined.

(** Witness of X16: a name with a space and an ampersand. *)
Lemma lookup_paths_tell_names_apart_witness :
  scm.Path (lookup_request "acme & co") = "api/v4/namespaces?search=acme+%26+co"
  ∧ "acme & co" = "acme & co".
Proof.
  split; [vm_compute; reflexivity |].
  exact (lookup_paths_tell_names_apart "acme & co" "acme & co" eq_refl).
Defined.

(** Witness of X17: an added label and a removed one. *)
Lemma convertLabelEvents_keeps_the_events_witness :
  gitlab.convertLabelEvents (H0 := name_converters)
    [Some (label_event "add" (Some 10)); Some (label_event "remove" (Some 20))]
  = Returns (Some [listed_event "labeled" 10; listed_event "unlabeled" 20])
  ∧ ∃ l, Some [listed_event "labeled" 10; listed_event "unlabeled" 20] = Some l
         ∧ l ≠ []
         ∧ Forall2 (converted (H0 := name_converters))
             [Some (label_event "add" (Some 10)); Some (label_event "remove" (Some 20))] l.
Proof.
  assert (H1 : gitlab.convertLabelEvents (H0 := name_converters)
                 [Some (label_event "add" (Some 10)); Some (label_event "remove" (Some 20))]
               = Returns (Some [listed_event "labeled" 10; listed_event "unlabeled" 20]))
    by (vm_compute; reflexivity).
  split; [exact H1 |].
  destruct (convertLabelEvents_keeps_the_events (H0 := name_converters) _ _ H1)
    as [[Hnil _] | Hl]; [discriminate Hnil | exact Hl].
Defined.
